(** * CMS hospital CSV downloader: a shallow embedding of [main.py]

    The program loads a metadata snapshot (file name -> last seen
    [modified] stamp), fetches a JSON catalog, keeps the hospital
    datasets, downloads every dataset whose stamp changed, rewrites its
    column headers with [snake_case], writes it to the output directory
    and finally persists the updated snapshot.

    Python values are embedded as follows.
    - [str] is a list of Unicode code points ([N]).
    - JSON documents ([response.json()], [json.load]) are values of the
      inductive type [json]; a [dict] is an association list in
      insertion order.
    - Exceptions are an explicit result type [res]; effects (the file
      system and the sequence of observable operations) are threaded
      through a state-and-error monad [M]. *)

From Stdlib Require Import NArith List String Ascii Bool Lia.
From stdpp Require Import base option list gmap.
Import ListNotations.

Local Open Scope N_scope.
Local Open Scope list_scope.

(** ** Python strings *)

(** A Python [str]: a finite sequence of code points. *)
Definition str := list N.

(** An ASCII literal as a [str]. *)
Definition py (s : string) : str := map N_of_ascii (list_ascii_of_string s).

Definition str_eqb (a b : str) : bool := bool_decide (a = b).

(** [str.isspace] on one code point (CPython's [_PyUnicode_IsWhitespace]);
    the regular-expression class [\s] on [str] patterns is the same set. *)
Definition isspace (c : N) : bool :=
  ((9 <=? c) && (c <=? 13)) || ((28 <=? c) && (c <=? 32))
  || (c =? 0x85) || (c =? 0xA0) || (c =? 0x1680)
  || ((0x2000 <=? c) && (c <=? 0x200A))
  || (c =? 0x2028) || (c =? 0x2029) || (c =? 0x202F) || (c =? 0x205F)
  || (c =? 0x3000).

Definition is_az (c : N) : bool := (97 <=? c) && (c <=? 122).
Definition is_digit (c : N) : bool := (48 <=? c) && (c <=? 57).
Definition underscore : N := 95.

(** [s.lstrip(chars)], [s.rstrip(chars)] and [s.strip(chars)] for a
    set of characters given as a predicate. *)
Fixpoint lstrip (p : N -> bool) (s : str) : str :=
  match s with
  | [] => []
  | c :: s' => if p c then lstrip p s' else s
  end.

Definition rstrip (p : N -> bool) (s : str) : str := rev (lstrip p (rev s)).

Definition strip (p : N -> bool) (s : str) : str := rstrip p (lstrip p s).

(** The case mapping of Unicode is a table of the interpreter; on a
    string of ASCII characters [str.lower] maps [A-Z] to [a-z], on any
    other string it is the interpreter's table, taken as a parameter. *)
Class Unicode := { unicode_lower : str -> str }.

Definition is_ascii (c : N) : bool := c <? 128.

Definition ascii_lower (c : N) : N :=
  if (65 <=? c) && (c <=? 90) then c + 32 else c.

Definition lower `{Unicode} (s : str) : str :=
  if forallb is_ascii s then map ascii_lower s else unicode_lower s.

(** ** Name normalizer *)

(** [re.sub(r"[^a-z0-9\s]", "", name)]: every character outside the
    class is deleted. *)
Definition keep_char (c : N) : bool := is_az c || is_digit c || isspace c.

Definition remove_special (s : str) : str := List.filter keep_char s.

(** [re.sub(r"\s+", "_", name)]: every maximal run of whitespace is
    replaced by one underscore. [in_run] tells that the previous
    character belonged to the run being replaced. *)
Fixpoint collapse_ws (in_run : bool) (s : str) : str :=
  match s with
  | [] => []
  | c :: s' =>
      if isspace c
      then (if in_run then collapse_ws true s'
            else underscore :: collapse_ws true s')
      else c :: collapse_ws false s'
  end.

Definition is_underscore (c : N) : bool := c =? underscore.

Definition snake_case `{Unicode} (name : str) : str :=
  let name := lower (strip isspace name) in
  let name := remove_special name in
  let name := collapse_ws false name in
  strip is_underscore name.

(** The characters of an identifier: [a-z], [0-9] and [_]. *)
Definition ident_char (c : N) : bool := is_az c || is_digit c || is_underscore c.

(** Two neighbouring underscores somewhere in [l]. *)
Definition double_underscore (l : str) : Prop :=
  exists l1 l2, l = l1 ++ [underscore; underscore] ++ l2.

(** [s.split()]: the maximal runs of characters that are not
    whitespace, in order. *)
Fixpoint split_ws (s : str) : list str :=
  match s with
  | [] => []
  | c :: s' =>
      if isspace c then split_ws s'
      else
        match s' with
        | [] => [[c]]
        | c' :: _ =>
            if isspace c' then [c] :: split_ws s'
            else
              match split_ws s' with
              | w :: ws => (c :: w) :: ws
              | [] => [[c]]
              end
        end
  end.

(** Whether the first character is whitespace. *)
Definition starts_with_space (t : str) : bool :=
  match t with
  | c :: _ => isspace c
  | [] => false
  end.

(** [sep.join(l)] for a separator of one character. *)
Fixpoint join_with (sep : N) (l : list str) : str :=
  match l with
  | [] => []
  | [x] => x
  | x :: l' => x ++ sep :: join_with sep l'
  end.

(** ** Exceptions and results *)

(** The exceptions the program can meet. [TypeError] stands for both
    [TypeError] and [AttributeError] (an operation applied to a value
    whose type does not support it); [EnvError] is any failure reported
    by the network, the CSV reader or the file system. All of them are
    subclasses of [Exception]. *)
Inductive exn :=
| KeyError | IndexError | TypeError | ValueError | JSONDecodeError
| EnvError (code : N).

Inductive res (A : Type) :=
| Ok (a : A)
| Raise (e : exn).
Arguments Ok {A} a.
Arguments Raise {A} e.

#[export] Instance res_ret : MRet res := fun A a => Ok a.
#[export] Instance res_bind : MBind res := fun A B f m =>
  match m with Ok a => f a | Raise e => Raise e end.

(** ** JSON values *)

(** Python's numbers ([int], [float]) are left to the interpreter: the
    value a literal denotes, its [repr], and [==] between numbers (a
    [bool] compares as the number 0 or 1). *)
Class PyNumber := {
  number : Type;
  num_of_literal : str -> number;
  num_repr : number -> str;
  num_eqb : number -> number -> bool;
  num_of_bool : bool -> number
}.

(** A [dict] with [str] keys: the items in insertion order. *)
Fixpoint dict_get {V} (k : str) (d : list (str * V)) : option V :=
  match d with
  | [] => None
  | (k', v) :: d' => if str_eqb k k' then Some v else dict_get k d'
  end.

(** [d[k] = v]: an existing key keeps its place, a new one goes last. *)
Fixpoint dict_set {V} (k : str) (v : V) (d : list (str * V)) : list (str * V) :=
  match d with
  | [] => [(k, v)]
  | (k', v') :: d' => if str_eqb k k' then (k, v) :: d' else (k', v') :: dict_set k v d'
  end.

(** [dict(pairs)] *)
Definition dict_of_pairs {V} (pairs : list (str * V)) : list (str * V) :=
  fold_left (fun d kv => dict_set kv.1 kv.2 d) pairs [].

Section Json.
Context `{PyNumber}.

#[warnings="-register-all"] Inductive json :=
| JNull
| JBool (b : bool)
| JNum (n : number)
| JStr (s : str)
| JArr (l : list json)
| JObj (d : list (str * json)).

(** [a == b] *)
Fixpoint py_eq (a b : json) : bool :=
  match a, b with
  | JNull, JNull => true
  | JBool x, JBool y => Bool.eqb x y
  | JBool x, JNum n => num_eqb (num_of_bool x) n
  | JNum n, JBool x => num_eqb n (num_of_bool x)
  | JNum m, JNum n => num_eqb m n
  | JStr s, JStr t => str_eqb s t
  | JArr l, JArr l' =>
      (fix go (l l' : list json) : bool :=
         match l, l' with
         | [], [] => true
         | x :: l, y :: l' => py_eq x y && go l l'
         | _, _ => false
         end) l l'
  | JObj d, JObj d' =>
      Nat.eqb (length d) (length d') &&
      (fix go (d : list (str * json)) : bool :=
         match d with
         | [] => true
         | (k, v) :: d =>
             match dict_get k d' with
             | Some v' => py_eq v v'
             | None => false
             end && go d
         end) d
  | _, _ => false
  end.

(** [s.startswith(p)] *)
Fixpoint startswith (p s : str) : bool :=
  match p, s with
  | [], _ => true
  | a :: p', b :: s' => (a =? b) && startswith p' s'
  | _ :: _, [] => false
  end.

(** [needle in hay] on two strings. *)
Fixpoint substring (needle hay : str) : bool :=
  startswith needle hay ||
  match hay with
  | [] => false
  | _ :: hay' => substring needle hay'
  end.

(** [x in c] for a string [x]. *)
Definition py_in (x : str) (c : json) : res bool :=
  match c with
  | JStr s => Ok (substring x s)
  | JArr l => Ok (existsb (py_eq (JStr x)) l)
  | JObj d => Ok (bool_decide (is_Some (dict_get x d)))
  | _ => Raise TypeError
  end.

(** [c[k]] for a string [k]. *)
Definition py_getitem (c : json) (k : str) : res json :=
  match c with
  | JObj d => match dict_get k d with Some v => Ok v | None => Raise KeyError end
  | _ => Raise TypeError
  end.

(** [c[0]] *)
Definition py_getitem0 (c : json) : res json :=
  match c with
  | JArr l => match l with x :: _ => Ok x | [] => Raise IndexError end
  | JStr s => match s with x :: _ => Ok (JStr [x]) | [] => Raise IndexError end
  | JObj _ => Raise KeyError
  | _ => Raise TypeError
  end.

(** [c.get(k, default)] *)
Definition py_get (c : json) (k : str) (default : json) : res json :=
  match c with
  | JObj d => Ok (match dict_get k d with Some v => v | None => default end)
  | _ => Raise TypeError
  end.

(** [c[k] = v] for a string [k]. *)
Definition py_setitem (c : json) (k : str) (v : json) : res json :=
  match c with
  | JObj d => Ok (JObj (dict_set k v d))
  | _ => Raise TypeError
  end.

(** [c.copy()] *)
Definition py_copy (c : json) : res json :=
  match c with
  | JObj _ | JArr _ => Ok c
  | _ => Raise TypeError
  end.

(** The items [for d in c] goes through. *)
Definition py_iter (c : json) : res (list json) :=
  match c with
  | JArr l => Ok l
  | JObj d => Ok (map (fun kv => JStr kv.1) d)
  | JStr s => Ok (map (fun x => JStr [x]) s)
  | _ => Raise TypeError
  end.

(** ** [json.dump(obj, f, indent=2)]

    The text [json.dump] writes, after [json.encoder]: strings are
    escaped to ASCII ([ensure_ascii] is on), items are separated by a
    comma and a new line indented by two spaces per level. *)

Definition quote : N := 34.
Definition backslash : N := 92.

Definition hex_digit (d : N) : N := if d <? 10 then 48 + d else 87 + d.

(** ['{0:04x}'.format(n)] for [n < 0x10000] *)
Definition hex4 (n : N) : str :=
  [hex_digit (N.land (N.shiftr n 12) 15); hex_digit (N.land (N.shiftr n 8) 15);
   hex_digit (N.land (N.shiftr n 4) 15); hex_digit (N.land n 15)].

Definition u_escape (n : N) : str := backslash :: 117 :: hex4 n.

(** The replacement of one character by [py_encode_basestring_ascii]. *)
Definition escape_char (c : N) : str :=
  if c =? quote then [backslash; quote]
  else if c =? backslash then [backslash; backslash]
  else if c =? 10 then [backslash; 110]
  else if c =? 13 then [backslash; 114]
  else if c =? 9 then [backslash; 116]
  else if c =? 8 then [backslash; 98]
  else if c =? 12 then [backslash; 102]
  else if (32 <=? c) && (c <=? 126) then [c]
  else if c <? 0x10000 then u_escape c
  else
    let n := c - 0x10000 in
    let s1 := N.lor 0xd800 (N.land (N.shiftr n 10) 0x3ff) in
    let s2 := N.lor 0xdc00 (N.land n 0x3ff) in
    u_escape s1 ++ u_escape s2.

Definition encode_basestring_ascii (s : str) : str :=
  quote :: flat_map escape_char s ++ [quote].

Definition newline_indent (level : nat) : str := 10 :: repeat 32 (2 * level)%nat.

Fixpoint iterencode (level : nat) (v : json) : str :=
  match v with
  | JNull => py "null"
  | JBool true => py "true"
  | JBool false => py "false"
  | JNum n => num_repr n
  | JStr s => encode_basestring_ascii s
  | JArr [] => py "[]"
  | JArr (x :: l) =>
      py "[" ++ newline_indent (S level) ++ iterencode (S level) x
      ++ flat_map (fun y => py "," ++ newline_indent (S level)
                            ++ iterencode (S level) y) l
      ++ newline_indent level ++ py "]"
  | JObj [] => py "{}"
  | JObj ((k, x) :: d) =>
      py "{" ++ newline_indent (S level)
      ++ encode_basestring_ascii k ++ py ": " ++ iterencode (S level) x
      ++ flat_map (fun '(k, y) => py "," ++ newline_indent (S level)
                                  ++ encode_basestring_ascii k ++ py ": "
                                  ++ iterencode (S level) y) d
      ++ newline_indent level ++ py "}"
  end.

Definition json_dumps (v : json) : str := iterencode 0 v.

(** ** [json.load(f)]

    The decoder of [json.decoder] and [json.scanner], reading the text
    from the left; every function returns the value read and the rest
    of the text, [None] stands for a [JSONDecodeError]. The interpreter's
    recursion limit is not part of the model. *)

Definition is_json_ws (c : N) : bool := (c =? 32) || (c =? 9) || (c =? 10) || (c =? 13).

Definition skip_ws (s : str) : str := lstrip is_json_ws s.

Definition unhex (c : N) : option N :=
  if is_digit c then Some (c - 48)
  else if (97 <=? c) && (c <=? 102) then Some (c - 87)
  else if (65 <=? c) && (c <=? 70) then Some (c - 55)
  else None.

(** [int(esc, 16)] for four hexadecimal digits *)
Definition decode_uXXXX (a b c d : N) : option N :=
  x ← unhex a; y ← unhex b; z ← unhex c; w ← unhex d;
  Some (((x * 16 + y) * 16 + z) * 16 + w).

(** The table [BACKSLASH] of simple escapes. *)
Definition unescape (e : N) : option N :=
  if e =? quote then Some quote
  else if e =? backslash then Some backslash
  else if e =? 47 then Some 47
  else if e =? 98 then Some 8
  else if e =? 102 then Some 12
  else if e =? 110 then Some 10
  else if e =? 114 then Some 13
  else if e =? 116 then Some 9
  else None.

Definition cons_fst {A} (c : N) (r : option (str * A)) : option (str * A) :=
  '(s, rest) ← r; Some (c :: s, rest).

(** [scanstring], from the character after the opening quote. *)
Fixpoint scanstring (s : str) : option (str * str) :=
  match s with
  | [] => None
  | c :: r =>
      if c =? quote then Some ([], r)
      else if c =? backslash then
        match r with
        | [] => None
        | e :: r1 =>
            if e =? 117 then
              match r1 with
              | h1 :: h2 :: h3 :: h4 :: r2 =>
                  match decode_uXXXX h1 h2 h3 h4 with
                  | None => None
                  | Some uni =>
                      if (0xd800 <=? uni) && (uni <=? 0xdbff) then
                        match r2 with
                        | b :: u :: r3 =>
                            if (b =? backslash) && (u =? 117) then
                              match r3 with
                              | g1 :: g2 :: g3 :: g4 :: r4 =>
                                  match decode_uXXXX g1 g2 g3 g4 with
                                  | None => None
                                  | Some uni2 =>
                                      if (0xdc00 <=? uni2) && (uni2 <=? 0xdfff) then
                                        cons_fst
                                          (0x10000 + N.lor (N.shiftl (uni - 0xd800) 10)
                                                           (uni2 - 0xdc00))
                                          (scanstring r4)
                                      else cons_fst uni (scanstring r2)
                                  end
                              | _ => None
                              end
                            else cons_fst uni (scanstring r2)
                        | _ => cons_fst uni (scanstring r2)
                        end
                      else cons_fst uni (scanstring r2)
                  end
              | _ => None
              end
            else
              match unescape e with
              | Some ch => cons_fst ch (scanstring r1)
              | None => None
              end
        end
      else if c <? 32 then None
      else cons_fst c (scanstring r)
  end.

(** The longest prefix of digits [0-9] and what follows it. *)
Fixpoint span_digits (s : str) : str * str :=
  match s with
  | c :: r => if is_digit c then let '(ds, rest) := span_digits r in (c :: ds, rest)
              else ([], s)
  | [] => ([], [])
  end.

(** [NUMBER_RE]: an optional minus sign and either [0] or a digit
    [1-9] followed by digits; then, optionally, a point and one or more
    digits; then, optionally, [e] or [E], an optional sign and one or
    more digits. The literal matched and the rest. *)
Definition match_number (s : str) : option (str * str) :=
  let '(sign, r) := match s with
                    | c :: r => if c =? 45 then ([c], r) else ([], s)
                    | [] => ([], s)
                    end in
  '(int, r) ← match r with
              | d :: r1 =>
                  if d =? 48 then Some ([d], r1)
                  else if is_digit d then
                    let '(ds, r2) := span_digits r1 in Some (d :: ds, r2)
                  else None
              | [] => None
              end;
  let '(frac, r) := match r with
                    | p :: r1 =>
                        if p =? 46 then
                          match span_digits r1 with
                          | ([], _) => ([], r)
                          | (ds, r2) => (p :: ds, r2)
                          end
                        else ([], r)
                    | [] => ([], r)
                    end in
  let '(exp, r) := match r with
                   | e :: r1 =>
                       if (e =? 101) || (e =? 69) then
                         let '(sg, r2) := match r1 with
                                          | c :: r2 => if (c =? 45) || (c =? 43)
                                                       then ([c], r2) else ([], r1)
                                          | [] => ([], r1)
                                          end in
                         match span_digits r2 with
                         | ([], _) => ([], r)
                         | (ds, r3) => (e :: sg ++ ds, r3)
                         end
                       else ([], r)
                   | [] => ([], r)
                   end in
  Some (sign ++ int ++ frac ++ exp, r).

(** [scan_once], [JSONArray] and [JSONObject]. [fuel] bounds the depth
    of the calls; [json_loads] starts with more than a text can use. *)
Fixpoint scan_once (fuel : nat) (s : str) : option (json * str) :=
  match fuel with
  | O => None
  | S fuel =>
      match s with
      | [] => None
      | c :: r =>
          if c =? quote then '(x, r') ← scanstring r; Some (JStr x, r')
          else if c =? 123 then
            match skip_ws r with
            | c1 :: r1 =>
                if c1 =? 125 then Some (JObj [], r1)
                else if c1 =? quote then
                  '(pairs, r') ← object_items fuel r1; Some (JObj (dict_of_pairs pairs), r')
                else None
            | [] => None
            end
          else if c =? 91 then
            match skip_ws r with
            | c1 :: r1 =>
                if c1 =? 93 then Some (JArr [], r1)
                else '(l, r') ← array_items fuel (c1 :: r1); Some (JArr l, r')
            | [] => None
            end
          else if startswith (py "null") s then Some (JNull, drop 4 s)
          else if startswith (py "true") s then Some (JBool true, drop 4 s)
          else if startswith (py "false") s then Some (JBool false, drop 5 s)
          else
            match match_number s with
            | Some (lit, r') => Some (JNum (num_of_literal lit), r')
            | None =>
                if startswith (py "NaN") s then Some (JNum (num_of_literal (py "NaN")), drop 3 s)
                else if startswith (py "Infinity") s
                then Some (JNum (num_of_literal (py "Infinity")), drop 8 s)
                else if startswith (py "-Infinity") s
                then Some (JNum (num_of_literal (py "-Infinity")), drop 9 s)
                else None
            end
      end
  end
with array_items (fuel : nat) (s : str) : option (list json * str) :=
  match fuel with
  | O => None
  | S fuel =>
      '(value, r) ← scan_once fuel s;
      match skip_ws r with
      | c :: r1 =>
          if c =? 93 then Some ([value], r1)
          else if c =? 44 then
            '(l, r') ← array_items fuel (skip_ws r1); Some (value :: l, r')
          else None
      | [] => None
      end
  end
with object_items (fuel : nat) (s : str) : option (list (str * json) * str) :=
  match fuel with
  | O => None
  | S fuel =>
      '(key, r) ← scanstring s;
      match skip_ws r with
      | c :: r1 =>
          if c =? 58 then
            '(value, r2) ← scan_once fuel (skip_ws r1);
            match skip_ws r2 with
            | c2 :: r3 =>
                if c2 =? 125 then Some ([(key, value)], r3)
                else if c2 =? 44 then
                  match skip_ws r3 with
                  | q :: r4 =>
                      if q =? quote then
                        '(pairs, r') ← object_items fuel r4; Some ((key, value) :: pairs, r')
                      else None
                  | [] => None
                  end
                else None
            | [] => None
            end
          else None
      | [] => None
      end
  end.

(** [json.loads(text)]: one value, surrounded by white space only. *)
Definition json_loads (text : str) : res json :=
  match text with
  | 0xfeff :: _ => Raise JSONDecodeError
  | _ =>
      match scan_once (2 * length text + 1) (skip_ws text) with
      | Some (v, r) => match skip_ws r with [] => Ok v | _ => Raise JSONDecodeError end
      | None => Raise JSONDecodeError
      end
  end.

(** ** Snapshots of strings *)

(** A Unicode scalar value: a code point that is not a surrogate. *)
Definition is_scalar (c : N) : bool :=
  (c <? 0xd800) || ((0xe000 <=? c) && (c <? 0x110000)).

(** Unicode text: a string of scalar values. *)
Definition is_text (s : str) : bool := forallb is_scalar s.

(** The [dict] of a mapping from strings to strings. *)
Definition snapshot_json (snapshot : list (str * str)) : json :=
  JObj (map (fun kv => (kv.1, JStr kv.2)) snapshot).

(** A finite mapping from text to text: no key twice. *)
Definition string_snapshot (snapshot : list (str * str)) : Prop :=
  NoDup (map fst snapshot)
  /\ Forall (fun kv => is_text kv.1 = true /\ is_text kv.2 = true) snapshot.

(** The text of a string, and of the items of a snapshot after the
    first, each followed by [rest]. *)
Definition quoted (s rest : str) : str := quote :: flat_map escape_char s ++ quote :: rest.

Fixpoint items_text (d : list (str * str)) (rest : str) : str :=
  match d with
  | [] => rest
  | (k, v) :: d => 44 :: 10 :: 32 :: 32 :: quoted k (58 :: 32 :: quoted v (items_text d rest))
  end.

End Json.

(** ** The outside world *)

(** [urllib.parse.urlparse(url).path] and [pathlib.Path(path).name],
    on strings. *)
Class UrlLib := {
  urlparse_path : str -> res str;
  path_name : str -> str
}.

(** A table as [pandas] holds it: the column labels and the rows. *)
Record DataFrame (cell : Type) := {
  columns : list str;
  rows : list (list cell)
}.
Arguments columns {cell} d.
Arguments rows {cell} d.

(** The values of the cells and the text [df.to_csv(index=False)]
    produces are the library's. *)
Class Pandas := {
  cell : Type;
  to_csv_text : DataFrame cell -> str
}.

(** How a write to a file can go wrong: not at all, when the file is
    opened (it is left as it was), or after the file was truncated and
    the first [n] characters were written. *)
Inductive fault :=
| NoFault
| FailOpen (e : exn)
| FailAfter (n : nat) (e : exn).

Definition OUTPUT_DIR : str := py "cms_hospitals_data".
Definition METADATA_FILE : str := py "cms_hospitals_data/metadata.json".
Definition SOURCE_URL : str :=
  py "https://data.cms.gov/provider-data/api/1/metastore/schemas/dataset/items".

(** [OUTPUT_DIR / name] *)
Definition output_path (name : str) : str :=
  match name with
  | [] => OUTPUT_DIR
  | _ => OUTPUT_DIR ++ py "/" ++ name
  end.

Section Program.
Context `{Unicode} `{PyNumber} `{UrlLib} `{Pandas}.

(** What one run meets outside: the answer of the catalog endpoint
    (the request, its status check and the decoding of the body), the
    outcome of [pd.read_csv] on a URL, and the faults of file writes. *)
Record env := {
  http_get_json : str -> res json;
  read_csv : json -> res (DataFrame cell);
  write_fault : str -> str -> fault
}.

(** The lines the program prints. *)
Inductive message :=
| Skipping (name : str)
| Downloading (title url : json)
| Saved (path : str)
| Failed (name : str) (e : exn).

(** The operations of a run that can be observed from outside. *)
Inductive event :=
| EvPrint (m : message)
| EvMkdir (path : str)
| EvHttpGet (url : str)
| EvReadCsv (url : json)
| EvToCsv (path : str)
| EvJsonDump (path : str).

(** The files (path to text) and the operations so far. *)
Record world := {
  files : gmap str str;
  trace : list event
}.

(** A computation changes the world and returns or raises. *)
Definition M (A : Type) : Type := world -> res A * world.

#[export] Instance M_ret : MRet M := fun A a w => (Ok a, w).
#[export] Instance M_bind : MBind M := fun A B f m w =>
  match m w with
  | (Ok a, w') => f a w'
  | (Raise e, w') => (Raise e, w')
  end.

Definition lift {A} (r : res A) : M A := fun w => (r, w).

Definition emit (ev : event) : M unit :=
  fun w => (Ok tt, {| files := files w; trace := trace w ++ [ev] |}).

(** [try: body except Exception as e: handler(e)] *)
Definition try_except {A} (body : M A) (handler : exn -> M A) : M A :=
  fun w =>
    match body w with
    | (Ok a, w') => (Ok a, w')
    | (Raise e, w') => handler e w'
    end.

(** Opening [path] for writing and writing [content] to it. *)
Definition write_file (e : env) (ev : event) (path content : str) : M unit :=
  fun w =>
    let tr := trace w ++ [ev] in
    match write_fault e path content with
    | NoFault => (Ok tt, {| files := <[path := content]> (files w); trace := tr |})
    | FailOpen err => (Raise err, {| files := files w; trace := tr |})
    | FailAfter n err =>
        (Raise err, {| files := <[path := take n content]> (files w); trace := tr |})
    end.

(** ** Metadata store *)

Definition load_metadata : M json :=
  fun w =>
    match files w !! METADATA_FILE with
    | Some text => (json_loads text, w)
    | None => (Ok (JObj []), w)
    end.

Definition save_metadata (e : env) (metadata : json) : M unit :=
  emit (EvMkdir OUTPUT_DIR);;
  write_file e (EvJsonDump METADATA_FILE) METADATA_FILE (json_dumps metadata).

(** ** Catalog fetcher *)

(** [[x for x in l if p(x)]] where the test can raise. *)
Fixpoint filter_res {A} (p : A -> res bool) (l : list A) : res (list A) :=
  match l with
  | [] => Ok []
  | x :: l' =>
      b ← p x;
      l'' ← filter_res p l';
      Ok (if b : bool then x :: l'' else l'')
  end.

(** ['Hospitals' in d.get('theme', '')] *)
Definition is_hospital (d : json) : res bool :=
  theme ← py_get d (py "theme") (JStr []);
  py_in (py "Hospitals") theme.

Definition fetch_hospital_datasets (e : env) : M (list json) :=
  emit (EvHttpGet SOURCE_URL);;
  data ← lift (http_get_json e SOURCE_URL);
  lift (items ← py_iter data; filter_res is_hospital items).

(** ** Dataset processor *)

(** [Path(urlparse(download_url).path).name]. On a value that is not a
    string, [urlparse] either fails or answers a bytes path, which
    [Path] rejects. *)
Definition url_file_name (download_url : json) : res str :=
  match download_url with
  | JStr u => file_path ← urlparse_path u; Ok (path_name file_path)
  | _ => Raise TypeError
  end.

(** [name in last_metadata and last_metadata[name] == modified] *)
Definition unchanged (last_metadata : json) (name : str) (modified : json) : res bool :=
  present ← py_in name last_metadata;
  if present : bool
  then stored ← py_getitem last_metadata name; Ok (py_eq stored modified)
  else Ok false.

(** [df.columns = [snake_case(col) for col in df.columns]] *)
Definition rename_columns (df : DataFrame cell) : DataFrame cell :=
  {| columns := map snake_case (columns df); rows := rows df |}.

Definition download_and_process (e : env) (dataset last_metadata : json)
  : M (option (str * json)) :=
  title ← lift (py_getitem dataset (py "title"));
  modified ← lift (py_get dataset (py "modified") JNull);
  distribution ← lift (py_get dataset (py "distribution") (JArr [JObj []]));
  first ← lift (py_getitem0 distribution);
  download_url ← lift (py_get first (py "downloadURL") JNull);
  name ← lift (url_file_name download_url);
  skip ← lift (unchanged last_metadata name modified);
  if skip : bool then
    emit (EvPrint (Skipping name));;
    mret None
  else
    try_except
      (emit (EvPrint (Downloading title download_url));;
       emit (EvReadCsv download_url);;
       df ← lift (read_csv e download_url);
       let df := rename_columns df in
       write_file e (EvToCsv (output_path name)) (output_path name) (to_csv_text df);;
       emit (EvPrint (Saved (output_path name)));;
       mret (Some (name, modified)))
      (fun err =>
         emit (EvPrint (Failed name err));;
         mret None).

(** ** Pipeline orchestrator *)

(** [[executor.submit(task) for task in tasks]], then the end of the
    [with] block, which waits for every task: each task runs, and its
    result or its exception is kept in its future. The tasks are run
    one after the other here; what a task returns depends on its
    arguments and on [env] only, not on the other tasks. *)
Fixpoint run_tasks {A} (tasks : list (M A)) (w : world) : list (res A) * world :=
  match tasks with
  | [] => ([], w)
  | task :: tasks' =>
      let '(r, w1) := task w in
      let '(rs, w2) := run_tasks tasks' w1 in
      (r :: rs, w2)
  end.

Definition submit_all {A} (tasks : list (M A)) : M (list (res A)) :=
  fun w => let '(futures, w') := run_tasks tasks w in (Ok futures, w').

(** The loop over the futures: [future.result()] returns the task's
    result or raises its exception again. *)
Fixpoint collect (futures : list (res (option (str * json)))) (updated_metadata : json)
  : res json :=
  match futures with
  | [] => Ok updated_metadata
  | future :: futures' =>
      result ← future;
      match result with
      | Some (name, modified) =>
          updated_metadata ← py_setitem updated_metadata name modified;
          collect futures' updated_metadata
      | None => collect futures' updated_metadata
      end
  end.

Definition main (e : env) : M unit :=
  emit (EvMkdir OUTPUT_DIR);;
  last_metadata ← load_metadata;
  updated_metadata ← lift (py_copy last_metadata);
  datasets ← fetch_hospital_datasets e;
  futures ← submit_all (map (fun d => download_and_process e d last_metadata) datasets);
  updated_metadata ← lift (collect futures updated_metadata);
  save_metadata e updated_metadata.

(** ** Vocabulary of the statements *)

(** What [download_and_process] reads from a descriptor before its
    [try] block, in the order of the code. *)
Definition title_of (dataset : json) : res json := py_getitem dataset (py "title").

Definition modified_of (dataset : json) : res json := py_get dataset (py "modified") JNull.

Definition download_url_of (dataset : json) : res json :=
  distribution ← py_get dataset (py "distribution") (JArr [JObj []]);
  first ← py_getitem0 distribution;
  py_get first (py "downloadURL") JNull.

Definition file_name_of (dataset : json) : res str :=
  download_url ← download_url_of dataset;
  url_file_name download_url.

(** Everything [download_and_process] computes before it prints:
    title, stamp, URL, file name, and whether the stamp is unchanged. *)
Definition read_descriptor (dataset last_metadata : json)
  : res (json * json * json * str * bool) :=
  title ← title_of dataset;
  modified ← modified_of dataset;
  download_url ← download_url_of dataset;
  name ← url_file_name download_url;
  skip ← unchanged last_metadata name modified;
  Ok (title, modified, download_url, name, skip).




(** The datasets [fetch_hospital_datasets] returns. *)
Definition catalog (e : env) : res (list json) :=
  data ← http_get_json e SOURCE_URL;
  items ← py_iter data;
  filter_res is_hospital items.

(** What the future of a dataset holds: the result of its call of
    [download_and_process], or the exception it raised. *)
Definition task_result (e : env) (last_metadata dataset : json)
  : res (option (str * json)) :=
  (download_and_process e dataset last_metadata {| files := ∅; trace := [] |}).1.

(** An event other than the writing of the metadata. *)
Definition not_json_dump (ev : event) : Prop :=
  match ev with
  | EvJsonDump _ => False
  | _ => True
  end.

(** An event other than a download. *)
Definition not_read_csv (ev : event) : Prop :=
  match ev with
  | EvReadCsv _ => False
  | _ => True
  end.

(** The world after more operations were observed. *)
Definition observe (w : world) (evs : list event) : world :=
  {| files := files w; trace := trace w ++ evs |}.

(** The table [download_and_process] hands to [to_csv] for a URL. *)
Definition transformed (e : env) (download_url : json) : res str :=
  df ← read_csv e download_url;
  Ok (to_csv_text (rename_columns df)).

(** A catalog entry on which the filter's test raises: it is not an
    object, or its [theme] is [None], a boolean or a number. *)
Definition bad_entry (d : json) : bool :=
  match d with
  | JObj fields =>
      match dict_get (py "theme") fields with
      | Some JNull | Some (JBool _) | Some (JNum _) => true
      | _ => false
      end
  | _ => true
  end.

End Program.

(** ** A sample interpreter and library

    Instances of the interfaces above, for running the definitions on
    concrete inputs: strings that are not ASCII are lowered to
    themselves, a number is kept as its literal, the path of a URL is
    what follows the host up to [?] or [#], the name of a path is what
    follows its last [/], and a table is written with commas and new
    lines. *)
Module Sample.

#[export] Instance sample_unicode : Unicode := {| unicode_lower := fun s => s |}.

#[export] Instance sample_number : PyNumber := {|
  number := str;
  num_of_literal := fun s => s;
  num_repr := fun s => s;
  num_eqb := str_eqb;
  num_of_bool := fun b => if b then py "1" else py "0"
|}.

Fixpoint drop_until (p : N -> bool) (s : str) : str :=
  match s with
  | [] => []
  | c :: s' => if p c then s else drop_until p s'
  end.

Fixpoint take_until (p : N -> bool) (s : str) : str :=
  match s with
  | [] => []
  | c :: s' => if p c then [] else c :: take_until p s'
  end.

Definition sample_urlparse_path (u : str) : res str :=
  let after_scheme :=
    match drop_until (N.eqb 58) u with
    | _ :: 47 :: 47 :: r => drop_until (N.eqb 47) r
    | _ => u
    end in
  Ok (take_until (fun c => (c =? 63) || (c =? 35)) after_scheme).

Fixpoint sample_path_name (p : str) : str :=
  match p with
  | [] => []
  | c :: p' => if existsb (N.eqb 47) p then sample_path_name p' else p
  end.

#[export] Instance sample_urllib : UrlLib := {|
  urlparse_path := sample_urlparse_path;
  path_name := sample_path_name
|}.

Fixpoint join (sep : str) (l : list str) : str :=
  match l with
  | [] => []
  | [x] => x
  | x :: l' => x ++ sep ++ join sep l'
  end.

Definition csv_line (fields : list str) : str := join (py ",") fields ++ [10].

#[export] Instance sample_pandas : Pandas := {|
  cell := str;
  to_csv_text := fun df => csv_line (columns df) ++ flat_map csv_line (rows df)
|}.

(** A catalog entry with all its fields. *)
Definition descriptor (title : string) (theme : json) (modified url : string) : json :=
  JObj [(py "title", JStr (py title));
        (py "theme", theme);
        (py "modified", JStr (py modified));
        (py "distribution", JArr [JObj [(py "downloadURL", JStr (py url))]])].

Definition url_a : string := "https://x.org/files/a.csv".
Definition url_c : string := "https://x.org/files/c.csv?rev=2".

Definition hospital_a : json :=
  descriptor "General information" (JArr [JStr (py "Hospitals")]) "2021-01-01" url_a.


Definition hospital_c : json :=
  descriptor "Survey" (JStr (py "Hospitals - General")) "2021-01-03" url_c.


Definition no_title : json :=
  JObj [(py "theme", JStr (py "Hospitals"));
        (py "modified", JStr (py "2021-01-04"));
        (py "distribution", JArr [JObj [(py "downloadURL", JStr (py "https://x.org/d.csv"))]])].

Definition no_url : json :=
  JObj [(py "title", JStr (py "No file"));
        (py "theme", JStr (py "Hospitals"));
        (py "modified", JStr (py "2021-01-05"))].

Definition table_a : DataFrame cell :=
  {| columns := [py "Patient Survey  Score!"; py " Facility ID "];
     rows := [[py "4"; py "010001"]; [py "5"; py "010005"]] |}.

Definition table_c : DataFrame cell :=
  {| columns := [py "Measure Name"]; rows := [[py "x"]] |}.

Definition same_url (u : string) (v : json) : bool :=
  match v with
  | JStr s => str_eqb s (py u)
  | _ => false
  end.

(** A network that serves a catalog and both tables, and a disk that
    takes every write. *)
Definition env_fine (catalog : list json) : env :=
  {| http_get_json := fun _ => Ok (JArr catalog);
     read_csv := fun u => if same_url url_a u then Ok table_a
                          else if same_url url_c u then Ok table_c
                          else Raise (EnvError 404);
     write_fault := fun _ _ => NoFault |}.

(** The same, but the table of [hospital_a] cannot be fetched. *)
Definition env_a_down (catalog : list json) : env :=
  {| http_get_json := fun _ => Ok (JArr catalog);
     read_csv := fun u => if same_url url_c u then Ok table_c else Raise (EnvError 503);
     write_fault := fun _ _ => NoFault |}.

(** The same as [env_fine], but the disk is full after seven
    characters of any output file. *)
Definition env_disk_full (catalog : list json) : env :=
  {| http_get_json := fun _ => Ok (JArr catalog);
     read_csv := read_csv (env_fine catalog);
     write_fault := fun path _ => if str_eqb path METADATA_FILE then NoFault
                                  else FailAfter 7 (EnvError 28) |}.

Definition empty_world : world := {| files := ∅; trace := [] |}.

(** A world with an earlier output for [hospital_a] and the snapshot
    of an earlier run. *)
Definition earlier_world : world :=
  {| files := {[ output_path (py "a.csv") := py "old table";
                 METADATA_FILE := json_dumps (snapshot_json [(py "a.csv", py "2020-12-01")]) ]};
     trace := [] |}.

(** A snapshot with characters that are escaped when written. *)
Definition text_snapshot : list (str * str) :=
  [(py "a.csv", py "2021-01-01"); (py "b c.csv", [0x1F600; 34; 92; 233; 10])].

(** A world whose metadata file is not JSON. *)
Definition broken_world : world :=
  {| files := {[ METADATA_FILE := py "{ a.csv: 2021" ]}; trace := [] |}.

(** A network on which the catalog request fails. *)
Definition env_offline : env :=
  {| http_get_json := fun _ => Raise (EnvError 500);
     read_csv := fun _ => Raise (EnvError 500);
     write_fault := fun _ _ => NoFault |}.

(** Worlds whose metadata file holds JSON that is not an object. *)
Definition null_world : world :=
  {| files := {[ METADATA_FILE := py "null" ]}; trace := [] |}.

Definition array_world : world :=
  {| files := {[ METADATA_FILE := py "[]" ]}; trace := [] |}.

(** An entry whose theme is [None]. *)
Definition null_theme : json :=
  JObj [(py "title", JStr (py "Odd")); (py "theme", JNull)].

(** Reading a string back, for display. *)
Definition unpy (s : str) : string := string_of_list_ascii (map ascii_of_N s).

End Sample.

(** * Theorems *)

(** ** Name normalizer *)

Section NameNormalizer.
Context `{Unicode}.

Lemma lstrip_app p s : exists l, s = l ++ lstrip p s.
Proof.
  induction s as [|c s [l IH]]; simpl.
  - by exists [].
  - destruct (p c); [exists (c :: l); simpl; congruence | by exists []].
Qed.

Lemma rstrip_app p s : exists l, s = rstrip p s ++ l.
Proof.
  unfold rstrip. destruct (lstrip_app p (rev s)) as [l Hl].
  exists (rev l). rewrite <- rev_app_distr, <- Hl. by rewrite rev_involutive.
Qed.

Lemma strip_app p s : exists l1 l2, s = l1 ++ strip p s ++ l2.
Proof.
  unfold strip. destruct (lstrip_app p s) as [l1 H1].
  destruct (rstrip_app p (lstrip p s)) as [l2 H2].
  exists l1, l2. congruence.
Qed.

Lemma lstrip_head p s c : head (lstrip p s) = Some c -> p c = false.
Proof.
  induction s as [|a s IH]; simpl; [done|].
  destruct (p a) eqn:E; [done|]. simpl. congruence.
Qed.

Lemma rstrip_last p s c : last (rstrip p s) = Some c -> p c = false.
Proof.
  unfold rstrip. intros Hl. apply (lstrip_head p (rev s)).
  destruct (lstrip p (rev s)) as [|a l]; [done|].
  simpl in Hl. by rewrite last_snoc in Hl.
Qed.

Lemma strip_head p s c : head (strip p s) = Some c -> p c = false.
Proof.
  unfold strip. intros Hh.
  destruct (rstrip_app p (lstrip p s)) as [l Hl].
  apply (lstrip_head p s). rewrite Hl.
  destruct (rstrip p (lstrip p s)); [done|]. exact Hh.
Qed.

Lemma strip_last p s c : last (strip p s) = Some c -> p c = false.
Proof. apply rstrip_last. Qed.

Lemma strip_Forall (P : N -> Prop) p s : Forall P s -> Forall P (strip p s).
Proof.
  destruct (strip_app p s) as (l1 & l2 & Hs). intros HP.
  rewrite Hs in HP. apply Forall_app in HP as [_ HP].
  by apply Forall_app in HP as [HP _].
Qed.

Lemma strip_double_underscore p s :
  double_underscore (strip p s) -> double_underscore s.
Proof.
  destruct (strip_app p s) as (l1 & l2 & Hs). intros (m1 & m2 & Hm).
  exists (l1 ++ m1), (m2 ++ l2). rewrite Hs at 1. rewrite Hm.
  by rewrite <- !app_assoc.
Qed.

Lemma keep_char_not_underscore c : keep_char c = true -> is_underscore c = false.
Proof.
  intros Hk. apply N.eqb_neq. intros ->. by vm_compute in Hk.
Qed.

Lemma collapse_ws_ident b s :
  Forall (fun c => keep_char c = true) s ->
  Forall (fun c => ident_char c = true) (collapse_ws b s).
Proof.
  intros Hs. revert b. induction Hs as [|c s Hc _ IH]; intros b; simpl; [done|].
  destruct (isspace c) eqn:E.
  - destruct b; [apply IH|]. constructor; [done | apply IH].
  - constructor; [|apply IH].
    unfold keep_char in Hc. unfold ident_char. rewrite E in Hc.
    rewrite orb_false_r in Hc. by rewrite Hc.
Qed.

Lemma collapse_ws_head s :
  head (collapse_ws true s) = Some underscore ->
  exists c, In c s /\ isspace c = false /\ is_underscore c = true.
Proof.
  induction s as [|c s IH]; simpl; [done|].
  destruct (isspace c) eqn:E.
  - intros Hh. destruct (IH Hh) as (x & ? & ?). exists x. tauto.
  - simpl. intros [= ->]. exists underscore. auto.
Qed.

Lemma collapse_ws_single b s :
  Forall (fun c => keep_char c = true) s ->
  ~ double_underscore (collapse_ws b s).
Proof.
  intros Hs. revert b. induction Hs as [|c s Hc Hs IH]; intros b; simpl.
  - intros (l1 & l2 & Hl). by destruct l1.
  - assert (Hstep : forall t, ~ double_underscore t ->
              head t <> Some underscore -> ~ double_underscore (underscore :: t)).
    { intros t Ht Hh (l1 & l2 & Hl). destruct l1 as [|a l1]; simpl in Hl.
      - injection Hl as ->. by apply Hh.
      - injection Hl as _ ->. apply Ht. by exists l1, l2. }
    assert (Hhead : head (collapse_ws true s) <> Some underscore).
    { intros Hh. apply collapse_ws_head in Hh as (x & Hin & _ & Hx).
      rewrite List.Forall_forall in Hs. apply Hs, keep_char_not_underscore in Hin.
      congruence. }
    destruct (isspace c) eqn:E.
    + destruct b; [apply IH|]. apply Hstep; [apply IH | done].
    + intros (l1 & l2 & Hl). destruct l1 as [|a l1]; simpl in Hl.
      * injection Hl as -> _. apply keep_char_not_underscore in Hc.
        unfold is_underscore in Hc. by rewrite N.eqb_refl in Hc.
      * injection Hl as _ Hl. apply (IH false). by exists l1, l2.
Qed.

Lemma collapse_ws_after_run ws b :
  forallb isspace ws = true ->
  (forall c, head b = Some c -> isspace c = false) ->
  collapse_ws true (ws ++ b) = collapse_ws false b.
Proof.
  intros Hws Hb. induction ws as [|x ws IH]; simpl.
  - destruct b as [|c b]; [done|]. simpl. by rewrite (Hb c).
  - simpl in Hws. apply andb_true_iff in Hws as [-> Hws]. by apply IH.
Qed.

(** A maximal run of whitespace becomes one underscore between the
    images of what precedes it and of what follows it. *)
Lemma collapse_ws_run in_run a ws b :
  (a = [] -> in_run = false) ->
  ws <> [] ->
  forallb isspace ws = true ->
  (forall c, last a = Some c -> isspace c = false) ->
  (forall c, head b = Some c -> isspace c = false) ->
  collapse_ws in_run (a ++ ws ++ b)
  = collapse_ws in_run a ++ underscore :: collapse_ws false b.
Proof.
  intros Hf Hne Hws Ha Hb. revert in_run Hf.
  induction a as [|c a IH]; intros in_run Hf.
  - rewrite Hf by done. destruct ws as [|x ws]; [done|].
    simpl in *. apply andb_true_iff in Hws as [-> Hws].
    by rewrite collapse_ws_after_run.
  - assert (Hstep : forall f, isspace c = true \/ f = false ->
                      collapse_ws f (a ++ ws ++ b)
                      = collapse_ws f a ++ underscore :: collapse_ws false b).
    { intros f Hc. apply IH.
      - intros x Hx. apply Ha. destruct a; [done|]. by rewrite last_cons_cons.
      - intros ->. destruct Hc as [Hc|Hc]; [|done].
        by rewrite (Ha c) in Hc. }
    simpl. destruct (isspace c) eqn:Hc.
    + destruct in_run; simpl; by rewrite Hstep by (by left).
    + simpl. by rewrite Hstep by (by right).
Qed.

(** C7. [snake_case] is a total function on strings; its result holds
    only lowercase ASCII letters, digits and underscores, neither
    starts nor ends with an underscore, and never has two
    underscores side by side; and any maximal run of whitespace that
    is left once the other characters are removed, whether it was
    there from the start or is made of pieces brought together by the
    removal, stands for exactly one underscore in what is then
    stripped of its outer underscores. *)
Theorem snake_case_identifier (s : str) :
  Forall (fun c => ident_char c = true) (snake_case s)
  /\ head (snake_case s) <> Some underscore
  /\ last (snake_case s) <> Some underscore
  /\ ~ double_underscore (snake_case s)
  /\ forall a ws b,
       remove_special (lower (strip isspace s)) = a ++ ws ++ b ->
       ws <> [] ->
       forallb isspace ws = true ->
       (forall c, last a = Some c -> isspace c = false) ->
       (forall c, head b = Some c -> isspace c = false) ->
       snake_case s
       = strip is_underscore
           (collapse_ws false a ++ underscore :: collapse_ws false b).
Proof.
  unfold snake_case.
  set (t := remove_special (lower (strip isspace s))).
  assert (Ht : Forall (fun c => keep_char c = true) t).
  { apply List.Forall_forall. intros c Hc. by apply filter_In in Hc as [_ Hc]. }
  repeat split.
  - apply strip_Forall. by apply collapse_ws_ident.
  - intros Hh. apply strip_head in Hh. unfold is_underscore in Hh. by rewrite N.eqb_refl in Hh.
  - intros Hl. apply strip_last in Hl. unfold is_underscore in Hl. by rewrite N.eqb_refl in Hl.
  - intros Hd. apply strip_double_underscore in Hd.
    by apply (collapse_ws_single false t).
  - intros a ws b -> Hne Hws Ha Hb. by rewrite collapse_ws_run.
Qed.

End NameNormalizer.

(** ** Dataset processor *)

Section Processor.
Context `{Unicode} `{PyNumber} `{UrlLib} `{Pandas}.

Lemma observe_app w evs1 evs2 : observe (observe w evs1) evs2 = observe w (evs1 ++ evs2).
Proof. unfold observe. simpl. by rewrite <- app_assoc. Qed.

Lemma observe_nil w : observe w [] = w.
Proof. destruct w. unfold observe. simpl. by rewrite app_nil_r. Qed.

(** The [try] block and its handler, case by case. *)
Lemma try_block_cases (e : env) (title download_url : json) (name : str)
    (modified : json) (w : world) :
  try_except
    (emit (EvPrint (Downloading title download_url));;
     emit (EvReadCsv download_url);;
     df ← lift (read_csv e download_url);
     write_file e (EvToCsv (output_path name)) (output_path name)
       (to_csv_text (rename_columns df));;
     emit (EvPrint (Saved (output_path name)));;
     mret (Some (name, modified)))
    (fun err => emit (EvPrint (Failed name err));; mret None) w
  = let path := output_path name in
    let start := [EvPrint (Downloading title download_url); EvReadCsv download_url] in
    match read_csv e download_url with
    | Raise err => (Ok None, observe w (start ++ [EvPrint (Failed name err)]))
    | Ok df =>
        let text := to_csv_text (rename_columns df) in
        match write_fault e path text with
        | NoFault =>
            (Ok (Some (name, modified)),
             {| files := <[path := text]> (files w);
                trace := trace w ++ start ++ [EvToCsv path; EvPrint (Saved path)] |})
        | FailOpen err =>
            (Ok None, observe w (start ++ [EvToCsv path; EvPrint (Failed name err)]))
        | FailAfter n err =>
            (Ok None,
             {| files := <[path := take n text]> (files w);
                trace := trace w ++ start ++ [EvToCsv path; EvPrint (Failed name err)] |})
        end
    end.
Proof.
  unfold try_except, mbind, M_bind, emit, lift, write_file, mret, M_ret, observe. simpl.
  destruct (read_csv e download_url) as [df|err]; simpl.
  - destruct (write_fault e (output_path name) (to_csv_text (rename_columns df)));
      simpl; by rewrite <- ?app_assoc.
  - by rewrite <- ?app_assoc.
Qed.

(** The whole of [download_and_process]: what it reads from the
    descriptor decides between raising at once, skipping, and the
    attempt inside the [try] block. *)
Lemma download_and_process_unfold e dataset last_metadata w :
  download_and_process e dataset last_metadata w =
    match read_descriptor dataset last_metadata with
    | Raise err => (Raise err, w)
    | Ok (title, modified, download_url, name, skip) =>
        if skip : bool then (Ok None, observe w [EvPrint (Skipping name)])
        else
          let path := output_path name in
          let start := [EvPrint (Downloading title download_url); EvReadCsv download_url] in
          match read_csv e download_url with
          | Raise err => (Ok None, observe w (start ++ [EvPrint (Failed name err)]))
          | Ok df =>
              let text := to_csv_text (rename_columns df) in
              match write_fault e path text with
              | NoFault =>
                  (Ok (Some (name, modified)),
                   {| files := <[path := text]> (files w);
                      trace := trace w ++ start ++ [EvToCsv path; EvPrint (Saved path)] |})
              | FailOpen err =>
                  (Ok None, observe w (start ++ [EvToCsv path; EvPrint (Failed name err)]))
              | FailAfter n err =>
                  (Ok None,
                   {| files := <[path := take n text]> (files w);
                      trace := trace w ++ start
                               ++ [EvToCsv path; EvPrint (Failed name err)] |})
              end
          end
    end.
Proof.
  unfold download_and_process, read_descriptor, title_of, modified_of, download_url_of.
  unfold mbind at 1 2 3 4 5 6 7. unfold M_bind, lift.
  destruct (py_getitem dataset (py "title")) as [title|]; simpl; [|done].
  destruct (py_get dataset (py "modified") JNull) as [modified|]; simpl; [|done].
  destruct (py_get dataset (py "distribution") (JArr [JObj []])) as [distribution|];
    simpl; [|done].
  destruct (py_getitem0 distribution) as [first|]; simpl; [|done].
  destruct (py_get first (py "downloadURL") JNull) as [download_url|]; simpl; [|done].
  destruct (url_file_name download_url) as [name|]; simpl; [|done].
  destruct (unchanged last_metadata name modified) as [[]|]; simpl; [done| |done].
  apply try_block_cases.
Qed.

Lemma read_descriptor_Ok dataset last_metadata title modified download_url name skip :
  title_of dataset = Ok title ->
  modified_of dataset = Ok modified ->
  download_url_of dataset = Ok download_url ->
  url_file_name download_url = Ok name ->
  unchanged last_metadata name modified = Ok skip ->
  read_descriptor dataset last_metadata = Ok (title, modified, download_url, name, skip).
Proof.
  intros Ht Hm Hu Hn Hs. unfold read_descriptor.
  rewrite Ht, Hm, Hu. simpl. rewrite Hn. simpl. by rewrite Hs.
Qed.

Lemma unchanged_same_stamp snapshot name stamp :
  dict_get name snapshot = Some (JStr stamp) ->
  unchanged (JObj snapshot) name (JStr stamp) = Ok true.
Proof.
  intros Hs. unfold unchanged. simpl. rewrite Hs. simpl.
  unfold str_eqb. by rewrite bool_decide_eq_true_2.
Qed.

Lemma download_and_process_skips e dataset snapshot w title name stamp :
  title_of dataset = Ok title ->
  file_name_of dataset = Ok name ->
  modified_of dataset = Ok (JStr stamp) ->
  dict_get name snapshot = Some (JStr stamp) ->
  download_and_process e dataset (JObj snapshot) w
  = (Ok None, observe w [EvPrint (Skipping name)]).
Proof.
  intros Ht Hn Hm Hs. unfold file_name_of in Hn.
  destruct (download_url_of dataset) as [download_url|] eqn:Hu; [|done].
  simpl in Hn.
  rewrite download_and_process_unfold.
  rewrite (read_descriptor_Ok _ _ title (JStr stamp) download_url name true); try done.
  by apply unchanged_same_stamp.
Qed.

(** C1. A descriptor of the catalog (it has a title) whose file name,
    derived from its [downloadURL], is in the prior snapshot with a
    value equal, as a string, to the descriptor's [modified]: the call
    returns no result, and all it does is print the line that says so;
    nothing is fetched and no file is written. *)
Theorem skip_when_unchanged e dataset snapshot w title name stamp :
  title_of dataset = Ok title ->
  file_name_of dataset = Ok name ->
  modified_of dataset = Ok (JStr stamp) ->
  dict_get name snapshot = Some (JStr stamp) ->
  download_and_process e dataset (JObj snapshot) w
  = (Ok None, {| files := files w; trace := trace w ++ [EvPrint (Skipping name)] |}).
Proof.
  intros Ht Hn Hm Hs. unfold file_name_of in Hn.
  destruct (download_url_of dataset) as [download_url|] eqn:Hu; [|done].
  simpl in Hn.
  rewrite download_and_process_unfold.
  rewrite (read_descriptor_Ok _ _ title (JStr stamp) download_url name true); try done.
  unfold unchanged. simpl. rewrite Hs. simpl.
  unfold str_eqb. by rewrite bool_decide_eq_true_2.
Qed.


(** C10, as amended. What a call of [download_and_process] leaves in
    the files, by cause. When the call raises while reading the
    descriptor, or skips, the files are as before. When the table
    cannot be fetched or parsed, the call returns no result and the
    files are as before. When the table was read and the write
    succeeds, the call returns the file name with the stamp and the
    output file holds the whole transformed table. When the output file
    cannot be opened, the call returns no result and the files are as
    before. When the write fails after the file was opened, having
    written [n] characters, the call returns no result and the output
    file holds the first [n] characters of the transformed table: it
    is neither absent (or as before) nor complete. *)
Theorem output_file_states e dataset last_metadata w :
  let '(r, w') := download_and_process e dataset last_metadata w in
  match read_descriptor dataset last_metadata with
  | Raise err => r = Raise err /\ files w' = files w
  | Ok (_, _, _, _, true) => r = Ok None /\ files w' = files w
  | Ok (_, modified, download_url, name, false) =>
      match transformed e download_url with
      | Raise _ => r = Ok None /\ files w' = files w
      | Ok text =>
          match write_fault e (output_path name) text with
          | NoFault =>
              r = Ok (Some (name, modified))
              /\ files w' = <[output_path name := text]> (files w)
          | FailOpen _ => r = Ok None /\ files w' = files w
          | FailAfter n _ =>
              r = Ok None
              /\ files w' = <[output_path name := take n text]> (files w)
          end
      end
  end.
Proof.
  rewrite download_and_process_unfold. unfold transformed.
  destruct (read_descriptor dataset last_metadata)
    as [[[[[title modified] download_url] name] []]|]; [done| |done].
  destruct (read_csv e download_url) as [df|]; simpl; [|done].
  by destruct (write_fault e (output_path name) (to_csv_text (rename_columns df))).
Qed.

End Processor.

(** ** The JSON text of a snapshot read back *)

Ltac Zify.zify_post_hook ::= Z.to_euclidean_division_equations.

Section JsonRoundTrip.
Context `{PyNumber}.

Lemma lor_high_low a b k : b < 2 ^ k -> N.lor (a * 2 ^ k) b = a * 2 ^ k + b.
Proof.
  intros Hb.
  assert (Hland : N.land (a * 2 ^ k) b = 0).
  { apply N.bits_inj. intros i. rewrite N.land_spec, N.bits_0.
    destruct (N.lt_ge_cases i k) as [Hi|Hi].
    - by rewrite N.mul_pow2_bits_low.
    - rewrite <- (N.mod_small b (2 ^ k)) by exact Hb.
      rewrite N.mod_pow2_bits_high by exact Hi. apply andb_false_r. }
  rewrite N.add_nocarry_lxor by exact Hland. symmetry. by apply N.lxor_lor.
Qed.

Lemma unhex_hex_digit d : d < 16 -> unhex (hex_digit d) = Some d.
Proof.
  intros Hd. unfold unhex, hex_digit, is_digit.
  destruct (N.ltb_spec d 10).
  - rewrite (proj2 (N.leb_le 48 (48 + d))), (proj2 (N.leb_le (48 + d) 57)) by lia.
    simpl. f_equal. lia.
  - rewrite (proj2 (N.leb_gt (87 + d) 57)), andb_false_r by lia.
    rewrite (proj2 (N.leb_le 97 (87 + d))), (proj2 (N.leb_le (87 + d) 102)) by lia.
    simpl. f_equal. lia.
Qed.

Lemma nibbles n :
  n < 65536 ->
  let x := N.land (N.shiftr n 12) 15 in
  let y := N.land (N.shiftr n 8) 15 in
  let z := N.land (N.shiftr n 4) 15 in
  let w := N.land n 15 in
  x < 16 /\ y < 16 /\ z < 16 /\ w < 16 /\ ((x * 16 + y) * 16 + z) * 16 + w = n.
Proof.
  intros Hn. cbv zeta.
  change 15 with (N.ones 4). rewrite !N.land_ones, !N.shiftr_div_pow2.
  change (2 ^ 12) with 4096. change (2 ^ 8) with 256. change (2 ^ 4) with 16.
  lia.
Qed.

(** Four hexadecimal digits are read back as the number written. *)
Lemma decode_hex4 n :
  n < 65536 ->
  exists h1 h2 h3 h4, hex4 n = [h1; h2; h3; h4] /\ decode_uXXXX h1 h2 h3 h4 = Some n.
Proof.
  intros Hn. destruct (nibbles n Hn) as (Hx & Hy & Hz & Hw & Hsum).
  eexists _, _, _, _. split; [reflexivity|].
  unfold decode_uXXXX. rewrite !unhex_hex_digit by done. simpl. by rewrite Hsum.
Qed.

(** The two halves of a surrogate pair, and the pair joined again. *)
Lemma surrogate_pair c :
  0x10000 <= c < 0x110000 ->
  let n := c - 0x10000 in
  let s1 := N.lor 0xd800 (N.land (N.shiftr n 10) 0x3ff) in
  let s2 := N.lor 0xdc00 (N.land n 0x3ff) in
  0xd800 <= s1 <= 0xdbff /\ 0xdc00 <= s2 <= 0xdfff
  /\ 0x10000 + N.lor (N.shiftl (s1 - 0xd800) 10) (s2 - 0xdc00) = c.
Proof.
  intros Hc. cbv zeta.
  change 0x3ff with (N.ones 10). rewrite !N.land_ones, N.shiftr_div_pow2.
  change 0xd800 with (54 * 2 ^ 10). change 0xdc00 with (55 * 2 ^ 10).
  assert (Hh : (c - 65536) / 2 ^ 10 mod 2 ^ 10 < 2 ^ 10) by (apply N.mod_lt; lia).
  assert (Hl : (c - 65536) mod 2 ^ 10 < 2 ^ 10) by (apply N.mod_lt; lia).
  rewrite !lor_high_low by done.
  rewrite N.shiftl_mul_pow2.
  replace (54 * 2 ^ 10 + (c - 65536) / 2 ^ 10 mod 2 ^ 10 - 54 * 2 ^ 10)
    with ((c - 65536) / 2 ^ 10 mod 2 ^ 10) by lia.
  replace (55 * 2 ^ 10 + (c - 65536) mod 2 ^ 10 - 55 * 2 ^ 10)
    with ((c - 65536) mod 2 ^ 10) by lia.
  rewrite lor_high_low by done.
  change (2 ^ 10) with 1024 in *. lia.
Qed.

Lemma scanstring_u h1 h2 h3 h4 uni r :
  decode_uXXXX h1 h2 h3 h4 = Some uni ->
  (0xd800 <=? uni) && (uni <=? 0xdbff) = false ->
  scanstring (backslash :: 117 :: h1 :: h2 :: h3 :: h4 :: r) = cons_fst uni (scanstring r).
Proof. intros Hd Hh. cbn [scanstring]. rewrite Hd, Hh. reflexivity. Qed.

Lemma scanstring_pair h1 h2 h3 h4 g1 g2 g3 g4 uni uni2 r :
  decode_uXXXX h1 h2 h3 h4 = Some uni ->
  (0xd800 <=? uni) && (uni <=? 0xdbff) = true ->
  decode_uXXXX g1 g2 g3 g4 = Some uni2 ->
  (0xdc00 <=? uni2) && (uni2 <=? 0xdfff) = true ->
  scanstring (backslash :: 117 :: h1 :: h2 :: h3 :: h4
              :: backslash :: 117 :: g1 :: g2 :: g3 :: g4 :: r)
  = cons_fst (0x10000 + N.lor (N.shiftl (uni - 0xd800) 10) (uni2 - 0xdc00)) (scanstring r).
Proof. intros Hd Hh Hd2 Hl. cbn [scanstring]. rewrite Hd, Hh, Hd2, Hl. reflexivity. Qed.

(** What [escape_char] writes for a scalar value is read back as that
    value. *)
Lemma scanstring_escape_char c r :
  is_scalar c = true ->
  scanstring (escape_char c ++ r) = cons_fst c (scanstring r).
Proof.
  intros Hc. unfold escape_char.
  destruct (c =? quote) eqn:E1; [apply N.eqb_eq in E1; by subst|].
  destruct (c =? backslash) eqn:E2; [apply N.eqb_eq in E2; by subst|].
  destruct (c =? 10) eqn:E3; [apply N.eqb_eq in E3; by subst|].
  destruct (c =? 13) eqn:E4; [apply N.eqb_eq in E4; by subst|].
  destruct (c =? 9) eqn:E5; [apply N.eqb_eq in E5; by subst|].
  destruct (c =? 8) eqn:E6; [apply N.eqb_eq in E6; by subst|].
  destruct (c =? 12) eqn:E7; [apply N.eqb_eq in E7; by subst|].
  destruct ((32 <=? c) && (c <=? 126)) eqn:E8.
  { cbn [app scanstring]. rewrite E1, E2.
    apply andb_true_iff in E8 as [E8 _]. apply N.leb_le in E8.
    by rewrite (proj2 (N.ltb_ge c 32)). }
  unfold is_scalar in Hc.
  destruct (c <? 0x10000) eqn:E9.
  - apply N.ltb_lt in E9. destruct (decode_hex4 c E9) as (h1 & h2 & h3 & h4 & Hh & Hd).
    unfold u_escape. rewrite Hh. cbn [app]. apply scanstring_u; [done|].
    apply andb_false_iff. rewrite !N.leb_gt.
    apply orb_true_iff in Hc as [Hc|Hc]; [apply N.ltb_lt in Hc; lia|].
    apply andb_true_iff in Hc as [Hc _]. apply N.leb_le in Hc. lia.
  - apply N.ltb_ge in E9.
    assert (Hr : 0x10000 <= c < 0x110000).
    { split; [done|]. apply orb_true_iff in Hc as [Hc|Hc]; [apply N.ltb_lt in Hc; lia|].
      apply andb_true_iff in Hc as [_ Hc]. by apply N.ltb_lt in Hc. }
    destruct (surrogate_pair c Hr) as (H1 & H2 & Hj). cbv zeta in H1, H2, Hj. cbv zeta.
    set (s1 := N.lor 0xd800 (N.land (N.shiftr (c - 0x10000) 10) 0x3ff)) in *.
    set (s2 := N.lor 0xdc00 (N.land (c - 0x10000) 0x3ff)) in *.
    destruct (decode_hex4 s1 ltac:(lia)) as (h1 & h2 & h3 & h4 & Hh & Hd).
    destruct (decode_hex4 s2 ltac:(lia)) as (g1 & g2 & g3 & g4 & Hg & Hd2).
    unfold u_escape. rewrite Hh, Hg. cbn [app].
    rewrite (scanstring_pair _ _ _ _ _ _ _ _ s1 s2); try done.
    + by rewrite Hj.
    + apply andb_true_iff. rewrite !N.leb_le. lia.
    + apply andb_true_iff. rewrite !N.leb_le. lia.
Qed.

(** A string written by [encode_basestring_ascii] is read back by
    [scanstring], which stops after the closing quote. *)
Lemma scanstring_encoded s r :
  is_text s = true ->
  scanstring (flat_map escape_char s ++ quote :: r) = Some (s, r).
Proof.
  induction s as [|c s IH]; simpl; [done|].
  intros Hs. apply andb_true_iff in Hs as [Hc Hs].
  rewrite <- app_assoc, scanstring_escape_char by done.
  by rewrite IH.
Qed.

Lemma encode_basestring_ascii_app s rest :
  encode_basestring_ascii s ++ rest = quoted s rest.
Proof. unfold encode_basestring_ascii, quoted. simpl. by rewrite <- app_assoc. Qed.

Lemma json_dumps_snapshot k v d :
  json_dumps (snapshot_json ((k, v) :: d))
  = 123 :: 10 :: 32 :: 32 :: quoted k (58 :: 32 :: quoted v (items_text d [10; 125])).
Proof.
  unfold json_dumps, snapshot_json. cbn [map fst snd iterencode].
  change (py "{") with [123]. change (py ": ") with [58; 32].
  change (newline_indent 1) with [10; 32; 32]. change (newline_indent 0) with [10].
  change (py "}") with [125]. cbn [app].
  rewrite (encode_basestring_ascii_app k), (encode_basestring_ascii_app v).
  assert (Hitems : forall rest,
    flat_map (fun '(k, y) => 44 :: 10 :: 32 :: 32 :: encode_basestring_ascii k
                             ++ 58 :: 32 :: iterencode 1 y)
      (map (fun kv : str * str => (kv.1, JStr kv.2)) d) ++ rest
    = items_text d rest).
  { intros rest. induction d as [|[k' v'] d IH]; [done|].
    cbn [map fst snd items_text flat_map iterencode app].
    rewrite <- !app_assoc. rewrite (encode_basestring_ascii_app k'). cbn [app].
    rewrite (encode_basestring_ascii_app v'). by rewrite IH. }
  by rewrite <- Hitems.
Qed.

(** One item of an object: the last one, and one followed by more. *)
Lemma object_items_last fuel s key r1 value r2 r3 :
  scanstring s = Some (key, 58 :: r1) ->
  scan_once fuel (skip_ws r1) = Some (value, r2) ->
  skip_ws r2 = 125 :: r3 ->
  object_items (S fuel) s = Some ([(key, value)], r3).
Proof.
  intros Hk Hv Hr. cbn [object_items]. rewrite Hk. cbn [mbind option_bind].
  change (skip_ws (58 :: r1)) with (58 :: r1). change (58 =? 58) with true. cbv iota.
  rewrite Hv. cbn [mbind option_bind]. rewrite Hr. reflexivity.
Qed.

Lemma object_items_more fuel s key r1 value r2 r3 r4 pairs r' :
  scanstring s = Some (key, 58 :: r1) ->
  scan_once fuel (skip_ws r1) = Some (value, r2) ->
  skip_ws r2 = 44 :: r3 ->
  skip_ws r3 = quote :: r4 ->
  object_items fuel r4 = Some (pairs, r') ->
  object_items (S fuel) s = Some ((key, value) :: pairs, r').
Proof.
  intros Hk Hv Hr Hq Hp. cbn [object_items]. rewrite Hk. cbn [mbind option_bind].
  change (skip_ws (58 :: r1)) with (58 :: r1). change (58 =? 58) with true. cbv iota.
  rewrite Hv. cbn [mbind option_bind]. rewrite Hr.
  change (44 =? 125) with false. change (44 =? 44) with true. cbv iota.
  rewrite Hq. change (quote =? quote) with true. cbv iota.
  rewrite Hp. reflexivity.
Qed.

Lemma scan_once_quoted fuel v r :
  is_text v = true -> scan_once (S fuel) (quoted v r) = Some (JStr v, r).
Proof.
  intros Hv. unfold quoted. cbn [scan_once]. change (quote =? quote) with true. cbv iota.
  by rewrite scanstring_encoded.
Qed.

(** The items of a written snapshot, read from the character after
    the opening quote of the first key. *)
Lemma object_items_snapshot d fuel k v r :
  is_text k = true -> is_text v = true ->
  Forall (fun kv : str * str => is_text kv.1 = true /\ is_text kv.2 = true) d ->
  (length d + 2 <= fuel)%nat ->
  object_items fuel
    (flat_map escape_char k ++ quote :: 58 :: 32 :: quoted v (items_text d (10 :: 125 :: r)))
  = Some ((k, JStr v) :: map (fun kv => (kv.1, JStr kv.2)) d, r).
Proof.
  revert fuel k v. induction d as [|[k' v'] d IH]; intros fuel k v Hk Hv Hd Hf.
  - destruct fuel as [|[|fuel]]; [simpl in Hf; lia..|].
    eapply object_items_last.
    + by apply scanstring_encoded.
    + change (skip_ws (32 :: ?x)) with (skip_ws x). unfold quoted at 1.
      change (skip_ws (quote :: ?x)) with (quote :: x).
      by apply (scan_once_quoted fuel v).
    + reflexivity.
  - apply Forall_cons in Hd as [[Hk' Hv'] Hd].
    destruct fuel as [|[|fuel]]; [simpl in Hf; lia..|].
    eapply object_items_more.
    + by apply scanstring_encoded.
    + change (skip_ws (32 :: ?x)) with (skip_ws x). unfold quoted at 1.
      change (skip_ws (quote :: ?x)) with (quote :: x).
      by apply (scan_once_quoted fuel v).
    + reflexivity.
    + reflexivity.
    + apply IH; try done. simpl in Hf. lia.
Qed.

Lemma dict_set_fresh {V} (k : str) (v : V) (d : list (str * V)) :
  ~ In k (map fst d) -> dict_set k v d = d ++ [(k, v)].
Proof.
  induction d as [|[k' v'] d IH]; simpl; [done|].
  intros Hk. unfold str_eqb. rewrite bool_decide_eq_false_2 by (intros ->; tauto).
  rewrite IH; [done | tauto].
Qed.

Lemma dict_of_pairs_NoDup {V} (pairs : list (str * V)) :
  NoDup (map fst pairs) -> dict_of_pairs pairs = pairs.
Proof.
  unfold dict_of_pairs.
  assert (Hgen : forall acc : list (str * V),
    NoDup (map fst (acc ++ pairs)) ->
    fold_left (fun d kv => dict_set kv.1 kv.2 d) pairs acc = acc ++ pairs).
  { induction pairs as [|[k v] pairs IH]; intros acc Hnd; simpl.
    - by rewrite app_nil_r.
    - rewrite dict_set_fresh.
      + rewrite IH; rewrite <- app_assoc; [done|]. exact Hnd.
      + rewrite map_app in Hnd. simpl in Hnd.
        apply NoDup_ListNoDup, NoDup_remove_2 in Hnd.
        intros Hin. apply Hnd, in_or_app. by left. }
  intros Hnd. by apply (Hgen []).
Qed.

Lemma length_items_text d rest : (length d <= length (items_text d rest))%nat.
Proof.
  induction d as [|[k v] d IH]; simpl; [lia|].
  unfold quoted. simpl. rewrite !length_app. simpl. unfold quoted. simpl.
  rewrite !length_app. simpl. lia.
Qed.

(** The text [json.dump] writes for a mapping from text to text is
    read back by [json.load] as that mapping. *)
Lemma json_loads_dumps_snapshot snapshot :
  string_snapshot snapshot ->
  json_loads (json_dumps (snapshot_json snapshot)) = Ok (snapshot_json snapshot).
Proof.
  intros [Hnd Htext]. destruct snapshot as [|[k v] d]; [done|].
  apply Forall_cons in Htext as [[Hk Hv] Htext]. simpl in Hk, Hv.
  rewrite json_dumps_snapshot.
  set (body := flat_map escape_char k
               ++ quote :: 58 :: 32 :: quoted v (items_text d [10; 125])).
  change (quoted k (58 :: 32 :: quoted v (items_text d [10; 125]))) with (quote :: body).
  set (text := 123 :: 10 :: 32 :: 32 :: quote :: body).
  unfold json_loads.
  set (fuel := (2 * length text)%nat).
  assert (Hitems : object_items fuel body
                   = Some ((k, JStr v) :: map (fun kv => (kv.1, JStr kv.2)) d, [])).
  { apply object_items_snapshot; try done.
    subst fuel text body. simpl. rewrite length_app. simpl. unfold quoted. simpl.
    rewrite length_app. simpl. pose proof (length_items_text d [10; 125]). lia. }
  replace (fuel + 1)%nat with (S fuel) by lia.
  change (skip_ws text) with text. subst text.
  cbn [scan_once]. change (123 =? quote) with false. change (123 =? 123) with true.
  cbv iota. change (skip_ws (10 :: 32 :: 32 :: quote :: body)) with (quote :: body).
  change (quote =? 125) with false. change (quote =? quote) with true. cbv iota.
  rewrite Hitems. cbn [mbind option_bind]. change (skip_ws []) with (@nil N).
  rewrite dict_of_pairs_NoDup; [done|].
  simpl. simpl in Hnd. by rewrite map_map.
Qed.

End JsonRoundTrip.

(** ** Metadata store *)

Section MetadataStore.
Context `{Unicode} `{PyNumber} `{UrlLib} `{Pandas}.

(** C9. Without a metadata file [load_metadata] returns the empty
    mapping. With a file whose text the JSON decoder rejects, it raises
    the decoder's exception, and so does [main]: before anything is
    fetched, and without writing the metadata again. *)
Theorem load_metadata_absent_or_malformed (e : env) (w : world) :
  (files w !! METADATA_FILE = None -> load_metadata w = (Ok (JObj []), w))
  /\ (forall text err,
        files w !! METADATA_FILE = Some text ->
        json_loads text = Raise err ->
        load_metadata w = (Raise err, w)
        /\ main e w = (Raise err, observe w [EvMkdir OUTPUT_DIR])).
Proof.
  split.
  - intros Hf. unfold load_metadata. by rewrite Hf.
  - intros text err Hf Hl.
    assert (Hload : forall w', files w' = files w -> load_metadata w' = (Raise err, w')).
    { intros w' Hw'. unfold load_metadata. by rewrite Hw', Hf, Hl. }
    split; [by apply Hload|].
    unfold main, mbind, M_bind, emit. by rewrite Hload.
Qed.

(** C8. For a snapshot that is a finite mapping from text to text
    (its keys distinct, keys and values made of Unicode scalar values),
    a [save_metadata] that succeeds followed by [load_metadata] returns
    the snapshot itself: the same keys with the same values, in the
    same order, and nothing else. *)
Theorem save_then_load (e : env) (w w' : world) (snapshot : list (str * str)) :
  string_snapshot snapshot ->
  save_metadata e (snapshot_json snapshot) w = (Ok tt, w') ->
  load_metadata w' = (Ok (snapshot_json snapshot), w').
Proof.
  intros Hs. unfold save_metadata, write_file, mbind, M_bind, emit. simpl.
  destruct (write_fault e METADATA_FILE (json_dumps (snapshot_json snapshot)));
    intros [= <-].
  unfold load_metadata. simpl. rewrite lookup_insert_eq.
  by rewrite json_loads_dumps_snapshot.
Qed.

End MetadataStore.

(** ** Catalog fetcher *)

Section CatalogFetcher.
Context `{Unicode} `{PyNumber} `{UrlLib} `{Pandas}.






End CatalogFetcher.

(** ** Pipeline orchestrator *)

Section Orchestrator.
Context `{Unicode} `{PyNumber} `{UrlLib} `{Pandas}.

(** What a call returns does not depend on the files or on what
    happened before. *)
Lemma task_result_any_world e last_metadata dataset w :
  (download_and_process e dataset last_metadata w).1 = task_result e last_metadata dataset.
Proof.
  unfold task_result. rewrite !download_and_process_unfold.
  destruct (read_descriptor dataset last_metadata) as [[[[[title modified] url] name] []]|];
    try done.
  simpl. destruct (read_csv e url) as [df|]; [|done].
  by destruct (write_fault e (output_path name) (to_csv_text (rename_columns df))).
Qed.

Lemma task_result_raises e last_metadata dataset err :
  read_descriptor dataset last_metadata = Raise err ->
  task_result e last_metadata dataset = Raise err.
Proof.
  intros Hr. unfold task_result. by rewrite download_and_process_unfold, Hr.
Qed.


Lemma task_result_Ok_reads e last_metadata dataset result :
  task_result e last_metadata dataset = Ok result ->
  exists x, read_descriptor dataset last_metadata = Ok x.
Proof.
  destruct (read_descriptor dataset last_metadata) as [x|err] eqn:Hr; [by eexists|].
  by rewrite (task_result_raises _ _ _ err).
Qed.

(** A call that returns a file name returns the one derived from the
    descriptor, with the descriptor's stamp. *)
Lemma task_result_Some e last_metadata dataset name modified :
  task_result e last_metadata dataset = Ok (Some (name, modified)) ->
  file_name_of dataset = Ok name /\ modified_of dataset = Ok modified.
Proof.
  unfold task_result. rewrite download_and_process_unfold.
  unfold read_descriptor, file_name_of.
  destruct (title_of dataset); simpl; [|done].
  destruct (modified_of dataset) as [m|]; simpl; [|done].
  destruct (download_url_of dataset) as [url|]; simpl; [|done].
  destruct (url_file_name url) as [n|]; simpl; [|done].
  destruct (unchanged last_metadata n m) as [[]|]; simpl; [done| |done].
  destruct (read_csv e url) as [df|]; [|done].
  destruct (write_fault e (output_path n) (to_csv_text (rename_columns df)));
    simpl; try done.
  by intros [= -> ->].
Qed.

Ltac no_effect := exists []; rewrite app_nil_r; repeat split; constructor.

(** The operations of a call extend the trace, never with a write of
    the metadata; the files change at the output path of the dataset
    at most. *)
Lemma download_and_process_effects e dataset last_metadata w :
  exists evs,
    trace (download_and_process e dataset last_metadata w).2 = trace w ++ evs
    /\ Forall not_json_dump evs
    /\ forall p, (forall name, file_name_of dataset = Ok name -> output_path name <> p) ->
                 files (download_and_process e dataset last_metadata w).2 !! p = files w !! p.
Proof.
  rewrite download_and_process_unfold. unfold read_descriptor, file_name_of.
  destruct (title_of dataset); simpl; [|no_effect].
  destruct (modified_of dataset) as [m|]; simpl; [|no_effect].
  destruct (download_url_of dataset) as [url|]; simpl; [|no_effect].
  destruct (url_file_name url) as [n|]; simpl; [|no_effect].
  destruct (unchanged last_metadata n m) as [[]|]; simpl; [| |no_effect].
  { eexists. split; [reflexivity|]. split; [repeat constructor|done]. }
  destruct (read_csv e url) as [df|]; simpl.
  2:{ eexists. split; [reflexivity|]. split; [repeat constructor|done]. }
  destruct (write_fault e (output_path n) (to_csv_text (rename_columns df))); simpl;
    eexists; (split; [reflexivity|]); (split; [repeat constructor|]); intros p Hp;
    try done; rewrite lookup_insert_ne; try done; by apply Hp.
Qed.

Lemma run_tasks_results e last_metadata datasets w :
  (run_tasks (map (fun d => download_and_process e d last_metadata) datasets) w).1
  = map (task_result e last_metadata) datasets.
Proof.
  revert w. induction datasets as [|d ds IH]; intros w; simpl; [done|].
  destruct (download_and_process e d last_metadata w) as [r w1] eqn:Hd.
  specialize (IH w1).
  destruct (run_tasks (map (fun d => download_and_process e d last_metadata) ds) w1)
    as [rs w2].
  simpl in *. rewrite <- IH. f_equal.
  rewrite <- (task_result_any_world e last_metadata d w). by rewrite Hd.
Qed.

Lemma run_tasks_effects e last_metadata datasets w :
  exists evs,
    trace (run_tasks (map (fun d => download_and_process e d last_metadata) datasets) w).2
    = trace w ++ evs
    /\ Forall not_json_dump evs
    /\ forall p,
         (forall d name, In d datasets -> file_name_of d = Ok name -> output_path name <> p) ->
         files (run_tasks (map (fun d => download_and_process e d last_metadata)
                             datasets) w).2 !! p
         = files w !! p.
Proof.
  revert w. induction datasets as [|d ds IH]; intros w; simpl.
  - exists []. by rewrite app_nil_r.
  - destruct (download_and_process_effects e d last_metadata w) as (evs1 & Ht1 & Hj1 & Hf1).
    destruct (download_and_process e d last_metadata w) as [r w1].
    destruct (IH w1) as (evs2 & Ht2 & Hj2 & Hf2).
    destruct (run_tasks (map (fun d => download_and_process e d last_metadata) ds) w1)
      as [rs w2].
    simpl in *. exists (evs1 ++ evs2). split; [|split].
    + by rewrite Ht2, Ht1, app_assoc.
    + by apply Forall_app.
    + intros p Hp. rewrite Hf2, Hf1; [done| |]; intros; eapply Hp; eauto.
Qed.

Lemma fetch_hospital_datasets_catalog e w :
  fetch_hospital_datasets e w = (catalog e, observe w [EvHttpGet SOURCE_URL]).
Proof.
  unfold fetch_hospital_datasets, catalog, mbind, M_bind, emit, lift, observe. simpl.
  by destruct (http_get_json e SOURCE_URL).
Qed.

Lemma load_metadata_observe w evs :
  load_metadata (observe w evs) = ((load_metadata w).1, observe w evs).
Proof. unfold load_metadata. simpl. by destruct (files w !! METADATA_FILE). Qed.

Lemma save_metadata_cases e metadata w :
  save_metadata e metadata w =
    let tr := trace w ++ [EvMkdir OUTPUT_DIR; EvJsonDump METADATA_FILE] in
    match write_fault e METADATA_FILE (json_dumps metadata) with
    | NoFault =>
        (Ok tt, {| files := <[METADATA_FILE := json_dumps metadata]> (files w); trace := tr |})
    | FailOpen err => (Raise err, {| files := files w; trace := tr |})
    | FailAfter n err =>
        (Raise err,
         {| files := <[METADATA_FILE := take n (json_dumps metadata)]> (files w);
            trace := tr |})
    end.
Proof.
  unfold save_metadata, write_file, mbind, M_bind, emit. simpl.
  destruct (write_fault e METADATA_FILE (json_dumps metadata)); by rewrite <- app_assoc.
Qed.

(** The run, stage by stage. *)
Lemma main_unfold e w :
  main e w =
    match (load_metadata w).1 with
    | Raise err => (Raise err, observe w [EvMkdir OUTPUT_DIR])
    | Ok last_metadata =>
        match py_copy last_metadata with
        | Raise err => (Raise err, observe w [EvMkdir OUTPUT_DIR])
        | Ok updated_metadata =>
            let w2 := observe w [EvMkdir OUTPUT_DIR; EvHttpGet SOURCE_URL] in
            match catalog e with
            | Raise err => (Raise err, w2)
            | Ok datasets =>
                let run := run_tasks
                             (map (fun d => download_and_process e d last_metadata) datasets)
                             w2 in
                match collect run.1 updated_metadata with
                | Raise err => (Raise err, run.2)
                | Ok updated_metadata => save_metadata e updated_metadata run.2
                end
            end
        end
    end.
Proof.
  unfold main. unfold mbind at 1 2. unfold M_bind at 1 2. unfold emit at 1.
  fold (observe w [EvMkdir OUTPUT_DIR]). rewrite load_metadata_observe.
  destruct (load_metadata w).1 as [last_metadata|]; [|done].
  unfold mbind at 1. unfold M_bind at 1. unfold lift at 1.
  destruct (py_copy last_metadata) as [updated_metadata|]; [|done].
  unfold mbind at 1. unfold M_bind at 1.
  rewrite fetch_hospital_datasets_catalog, observe_app. simpl app.
  destruct (catalog e) as [datasets|]; [|done].
  unfold mbind at 1. unfold M_bind at 1. unfold submit_all.
  destruct (run_tasks _ _) as [futures w3]. simpl.
  unfold mbind, M_bind, lift.
  by destruct (collect futures updated_metadata).
Qed.

Lemma collect_raises futures updated_metadata err :
  In (Raise err) futures -> exists err', collect futures updated_metadata = Raise err'.
Proof.
  revert updated_metadata. induction futures as [|f fs IH]; intros u; simpl; [done|].
  intros [->|Hin]; [by eexists|].
  destruct f as [[[name modified]|]|]; simpl; [| |by eexists].
  - destruct (py_setitem u name modified); simpl; [by apply IH | by eexists].
  - by apply IH.
Qed.

(** C3. A descriptor that passed the filter and has no [title], or
    whose first distribution has no [downloadURL] (the URL is then
    [None]), makes [download_and_process] raise before its [try]
    block, without any effect. The run then ends with an exception and
    [save_metadata] is not called: the operations of the run contain
    no write of the metadata, and the metadata file is what it was
    (as long as no dataset is itself stored under that path), whatever
    the other datasets of the run returned. *)
Theorem malformed_descriptor_aborts_run e w datasets d :
  catalog e = Ok datasets ->
  In d datasets ->
  (exists fields, d = JObj fields /\ dict_get (py "title") fields = None)
  \/ download_url_of d = Ok JNull ->
  (forall last_metadata w0, exists err,
      download_and_process e d last_metadata w0 = (Raise err, w0))
  /\ exists err evs,
       (main e w).1 = Raise err
       /\ trace (main e w).2 = trace w ++ evs
       /\ Forall not_json_dump evs
       /\ ((forall d' name, In d' datasets -> file_name_of d' = Ok name ->
              output_path name <> METADATA_FILE) ->
           files (main e w).2 !! METADATA_FILE = files w !! METADATA_FILE).
Proof.
  intros Hcat Hin Hbad.
  assert (Hraise : forall last_metadata, exists err,
             read_descriptor d last_metadata = Raise err).
  { intros last_metadata. unfold read_descriptor.
    destruct Hbad as [(fields & -> & Ht)|Hu].
    - unfold title_of. simpl. rewrite Ht. by eexists.
    - destruct (title_of d); simpl; [|by eexists].
      destruct (modified_of d); simpl; [|by eexists].
      rewrite Hu. simpl. by eexists. }
  split.
  { intros last_metadata w0. destruct (Hraise last_metadata) as [err Herr].
    exists err. by rewrite download_and_process_unfold, Herr. }
  rewrite main_unfold.
  destruct (load_metadata w).1 as [last_metadata|err];
    [|exists err, [EvMkdir OUTPUT_DIR]; repeat split; repeat constructor].
  destruct (py_copy last_metadata) as [updated_metadata|err];
    [|exists err, [EvMkdir OUTPUT_DIR]; repeat split; repeat constructor].
  rewrite Hcat. cbv zeta.
  set (w2 := observe w [EvMkdir OUTPUT_DIR; EvHttpGet SOURCE_URL]).
  destruct (run_tasks_effects e last_metadata datasets w2) as (evs & Ht & Hj & Hf).
  rewrite run_tasks_results.
  destruct (Hraise last_metadata) as [err Herr].
  destruct (collect_raises (map (task_result e last_metadata) datasets)
              updated_metadata err) as [err' Hc].
  { apply in_map_iff. exists d. split; [|done]. by apply task_result_raises. }
  rewrite Hc. simpl.
  exists err', ([EvMkdir OUTPUT_DIR; EvHttpGet SOURCE_URL] ++ evs).
  split; [done|]. split; [|split].
  - rewrite Ht. subst w2. simpl. by rewrite <- app_assoc.
  - apply Forall_app. split; [repeat constructor | done].
  - intros Hp. by rewrite Hf.
Qed.

Lemma dict_get_set {V} (k k' : str) (v : V) (d : list (str * V)) :
  dict_get k (dict_set k' v d) = if str_eqb k k' then Some v else dict_get k d.
Proof.
  induction d as [|[k0 v0] d IH]; simpl; [done|].
  unfold str_eqb in *.
  destruct (bool_decide_reflect (k' = k0)) as [->|Hne]; simpl; unfold str_eqb.
  - by destruct (bool_decide_reflect (k = k0)).
  - rewrite IH. destruct (bool_decide_reflect (k = k0)) as [->|]; [|done].
    by rewrite bool_decide_eq_false_2 by congruence.
Qed.


Lemma collect_all_None futures updated_metadata :
  Forall (fun f => f = Ok None) futures -> collect futures updated_metadata = Ok updated_metadata.
Proof. induction 1 as [|f fs -> _ IH]; simpl; [done|]. exact IH. Qed.


Lemma collect_Ok futures updated_metadata final :
  collect futures updated_metadata = Ok final ->
  Forall (fun f => exists r, f = Ok r) futures.
Proof.
  revert updated_metadata. induction futures as [|f fs IH]; intros u; simpl; [done|].
  destruct f as [r|]; simpl; [|done].
  intros Hc. constructor; [by eexists|].
  destruct r as [[name modified]|]; [|by eapply IH].
  destruct (py_setitem u name modified); simpl in Hc; [by eapply IH | done].
Qed.

(** A name no future returns keeps its entry. *)
Lemma collect_lookup futures d final name :
  collect futures (JObj d) = Ok (JObj final) ->
  (forall modified, ~ In (Ok (Some (name, modified))) futures) ->
  dict_get name final = dict_get name d.
Proof.
  revert d. induction futures as [|f fs IH]; intros d; simpl.
  - by intros [= ->].
  - destruct f as [[[n m]|]|]; simpl; [| |done].
    + intros Hc Hn. rewrite (IH _ Hc) by (intros m' Hin; apply (Hn m'); by right).
      rewrite dict_get_set. unfold str_eqb.
      rewrite bool_decide_eq_false_2; [done|].
      intros ->. apply (Hn m). by left.
    + intros Hc Hn. apply (IH _ Hc). intros m' Hin. apply (Hn m'). by right.
Qed.


(** A run in which every call skips. *)
Lemma run_tasks_all_skip e snapshot datasets names w :
  Forall2 (fun d name => forall w0,
             download_and_process e d (JObj snapshot) w0
             = (Ok None, observe w0 [EvPrint (Skipping name)])) datasets names ->
  run_tasks (map (fun d => download_and_process e d (JObj snapshot)) datasets) w
  = (map (fun _ => Ok None) datasets,
     observe w (map (fun name => EvPrint (Skipping name)) names)).
Proof.
  intros Hall. revert w. induction Hall as [|d name ds ns Hd _ IH]; intros w; simpl.
  - by rewrite observe_nil.
  - rewrite Hd, IH, observe_app. reflexivity.
Qed.

(** C4. Let a first run complete, and let the snapshot it leaves
    record every dataset of the catalog: the file name of each dataset
    is there with the dataset's [modified] string. In a second run over
    the same catalog, whatever the network would answer, every call of
    [download_and_process] takes the skip branch and returns no
    result, in whatever world it is called; every operation of that
    run is the creation of the directory, the catalog request, the skip
    line of one of the datasets or the write of the metadata, and the
    skip line of every dataset is among them, in no stated order; none
    is a download, and no file other than the metadata file changes. *)
Theorem second_run_downloads_nothing e1 e2 w0 w1 datasets snapshot :
  main e1 w0 = (Ok tt, w1) ->
  catalog e1 = Ok datasets ->
  catalog e2 = Ok datasets ->
  (load_metadata w1).1 = Ok (JObj snapshot) ->
  Forall (fun d => exists name stamp,
            file_name_of d = Ok name
            /\ modified_of d = Ok (JStr stamp)
            /\ dict_get name snapshot = Some (JStr stamp)) datasets ->
  exists names evs,
    Forall2 (fun d name =>
               file_name_of d = Ok name
               /\ forall w, download_and_process e2 d (JObj snapshot) w
                            = (Ok None, observe w [EvPrint (Skipping name)]))
      datasets names
    /\ trace (main e2 w1).2 = trace w1 ++ evs
    /\ Forall not_read_csv evs
    /\ Forall (fun ev => ev = EvMkdir OUTPUT_DIR \/ ev = EvHttpGet SOURCE_URL
                         \/ ev = EvJsonDump METADATA_FILE
                         \/ exists name, In name names /\ ev = EvPrint (Skipping name)) evs
    /\ (forall name, In name names -> In (EvPrint (Skipping name)) evs)
    /\ forall p, p <> METADATA_FILE -> files (main e2 w1).2 !! p = files w1 !! p.
Proof.
  intros Hrun1 Hcat1 Hcat2 Hload Hrec.
  (* every descriptor has a title: the first run did not raise *)
  assert (Htitles : Forall (fun d => exists title, title_of d = Ok title) datasets).
  { rewrite main_unfold, Hcat1 in Hrun1.
    destruct (load_metadata w0).1 as [last0|]; [|done].
    destruct (py_copy last0) as [updated0|]; [|done].
    cbv zeta in Hrun1. rewrite run_tasks_results in Hrun1.
    destruct (collect (map (task_result e1 last0) datasets) updated0) as [final|] eqn:Hc;
      [|done].
    apply collect_Ok in Hc. apply (proj1 (List.Forall_map _ _ _)) in Hc.
    eapply Forall_impl; [exact Hc|]. intros d [r Hr]. simpl in Hr.
    apply task_result_Ok_reads in Hr as [x Hx]. unfold read_descriptor in Hx.
    destruct (title_of d) as [title|]; [by eexists|done]. }
  assert (Hskips : exists names,
    Forall2 (fun d name =>
               file_name_of d = Ok name
               /\ forall w, download_and_process e2 d (JObj snapshot) w
                            = (Ok None, observe w [EvPrint (Skipping name)]))
      datasets names).
  { clear Hrun1 Hcat1 Hcat2. induction datasets as [|d ds IH]; [by exists []|].
    apply Forall_cons in Hrec as [(name & stamp & Hn & Hm & Hs) Hrec].
    apply Forall_cons in Htitles as [[title Ht] Htitles].
    destruct (IH Hrec Htitles) as [names Hnames].
    exists (name :: names). constructor; [|done].
    split; [done|]. intros w.
    by apply (download_and_process_skips e2 d snapshot w title name stamp). }
  destruct Hskips as [names Hskips]. exists names.
  exists ([EvMkdir OUTPUT_DIR; EvHttpGet SOURCE_URL]
          ++ map (fun name => EvPrint (Skipping name)) names
          ++ [EvMkdir OUTPUT_DIR; EvJsonDump METADATA_FILE]).
  split; [done|].
  assert (Hrun : run_tasks (map (fun d => download_and_process e2 d (JObj snapshot)) datasets)
                   (observe w1 [EvMkdir OUTPUT_DIR; EvHttpGet SOURCE_URL])
                 = (map (fun _ => Ok None) datasets,
                    observe (observe w1 [EvMkdir OUTPUT_DIR; EvHttpGet SOURCE_URL])
                      (map (fun name => EvPrint (Skipping name)) names))).
  { apply run_tasks_all_skip. eapply Forall2_impl; [exact Hskips|]. by intros d n [_ Hd]. }
  rewrite main_unfold, Hload. simpl py_copy. cbv iota. rewrite Hcat2. cbv zeta.
  rewrite Hrun. simpl fst. simpl snd.
  rewrite collect_all_None by (apply Forall_map, Forall_forall; done).
  rewrite save_metadata_cases, observe_app.
  split; [|split; [|split; [|split]]].
  - destruct (write_fault e2 METADATA_FILE (json_dumps (JObj snapshot))); simpl;
      by rewrite <- !app_assoc.
  - apply Forall_app. split; [repeat constructor|].
    apply Forall_app. split; [|repeat constructor].
    apply Forall_map, Forall_forall. done.
  - apply Forall_app. split; [repeat constructor; tauto|].
    apply Forall_app. split; [|repeat constructor; tauto].
    apply Forall_map, List.Forall_forall. intros name Hin.
    do 3 right. by exists name.
  - intros name Hin. apply in_or_app. right. apply in_or_app. left.
    by apply (in_map (fun name => EvPrint (Skipping name))).
  - intros p Hp.
    destruct (write_fault e2 METADATA_FILE (json_dumps (JObj snapshot))); simpl;
      try done; by rewrite lookup_insert_ne.
Qed.

End Orchestrator.

(** * Further properties of the code *)

(** ** Catalog fetcher: what makes it raise *)

Section FetchFailures.
Context `{Unicode} `{PyNumber} `{UrlLib} `{Pandas}.

Lemma is_hospital_bad_entry d :
  is_hospital d = if bad_entry d then Raise TypeError
                  else is_hospital d.
Proof.
  destruct d as [| | | | |fields]; try done.
  unfold is_hospital. simpl.
  by destruct (dict_get (py "theme") fields) as [[]|].
Qed.

Lemma is_hospital_good_entry d :
  bad_entry d = false -> exists b, is_hospital d = Ok b.
Proof.
  destruct d as [| | | | |fields]; try done.
  unfold is_hospital. simpl.
  destruct (dict_get (py "theme") fields) as [[]|]; try done; by eexists.
Qed.

Lemma filter_res_raises {A} (p : A -> res bool) (l : list A) err :
  filter_res p l = Raise err -> exists x, In x l /\ p x = Raise err.
Proof.
  induction l as [|x l IH]; simpl; [done|].
  destruct (p x) as [b|e] eqn:Hx; simpl.
  - destruct (filter_res p l) as [l'|e'] eqn:Hl; simpl; [done|].
    intros [= ->]. destruct (IH eq_refl) as (y & Hin & Hy). exists y. by split; [right|].
  - intros [= ->]. exists x. by split; [left|].
Qed.

(** X1. When the endpoint answers an array, the fetch raises exactly
    when some entry is not an object or has a theme that is [None], a
    boolean or a number; the exception is then a [TypeError] (or
    [AttributeError]) and no dataset at all is returned, the good
    entries included. *)
Theorem fetch_raises_iff_bad_entry (e : env) (w : world) (items : list json) :
  http_get_json e SOURCE_URL = Ok (JArr items) ->
  ((exists err, (fetch_hospital_datasets e w).1 = Raise err)
   <-> Exists (fun d => bad_entry d = true) items)
  /\ (Exists (fun d => bad_entry d = true) items ->
      fetch_hospital_datasets e w = (Raise TypeError, observe w [EvHttpGet SOURCE_URL])).
Proof.
  intros Hget. rewrite fetch_hospital_datasets_catalog. unfold catalog.
  rewrite Hget. simpl.
  assert (Hbad : Exists (fun d => bad_entry d = true) items ->
                 filter_res is_hospital items = Raise TypeError).
  { clear Hget. induction 1 as [d l Hd|d l _ IH]; simpl.
    - by rewrite is_hospital_bad_entry, Hd.
    - rewrite IH. destruct (is_hospital d) as [b|err] eqn:Hd; simpl; [done|].
      rewrite is_hospital_bad_entry in Hd.
      destruct (bad_entry d) eqn:Hb; [congruence|].
      destruct (is_hospital_good_entry d Hb) as [b Hok]. congruence. }
  split; [split|].
  - intros [err Herr]. apply filter_res_raises in Herr as (d & Hin & Hd).
    apply List.Exists_exists. exists d. split; [done|].
    destruct (bad_entry d) eqn:Hb; [done|].
    destruct (is_hospital_good_entry d Hb) as [b Hok]. congruence.
  - intros Hex. exists TypeError. by apply Hbad.
  - intros Hex. by rewrite Hbad.
Qed.

(** X2. An answer that is not an array: an empty object or an empty
    string gives no dataset; any other object or string, [None], a
    boolean or a number makes the fetch raise. *)
Theorem fetch_of_non_array (e : env) (w : world) (data : json) :
  http_get_json e SOURCE_URL = Ok data ->
  match data with
  | JArr _ => True
  | JObj [] | JStr [] =>
      fetch_hospital_datasets e w = (Ok [], observe w [EvHttpGet SOURCE_URL])
  | _ =>
      fetch_hospital_datasets e w = (Raise TypeError, observe w [EvHttpGet SOURCE_URL])
  end.
Proof.
  intros Hget. rewrite fetch_hospital_datasets_catalog. unfold catalog.
  rewrite Hget. by destruct data as [| | |[|c s]|l|[|[k v] d]].
Qed.

(** X3. When the catalog request fails, the fetch raises the same
    exception, and so does the run: after the directory and the one
    request nothing else happens, no file changes and the metadata is
    not written. *)
Theorem catalog_failure_aborts_run (e : env) (w : world) last err :
  http_get_json e SOURCE_URL = Raise err ->
  (load_metadata w).1 = Ok (JObj last) ->
  fetch_hospital_datasets e w = (Raise err, observe w [EvHttpGet SOURCE_URL])
  /\ main e w = (Raise err, observe w [EvMkdir OUTPUT_DIR; EvHttpGet SOURCE_URL]).
Proof.
  intros Hget Hload.
  assert (Hcat : catalog e = Raise err) by (unfold catalog; by rewrite Hget).
  split.
  - by rewrite fetch_hospital_datasets_catalog, Hcat.
  - rewrite main_unfold, Hload. simpl. by rewrite Hcat.
Qed.

End FetchFailures.

(** ** Dataset processor: when it skips, fetches and raises *)

Section ProcessorCases.
Context `{Unicode} `{PyNumber} `{UrlLib} `{Pandas}.

Lemma unchanged_dict snapshot name modified :
  unchanged (JObj snapshot) name modified
  = Ok (match dict_get name snapshot with
        | Some stored => py_eq stored modified
        | None => false
        end).
Proof. unfold unchanged. simpl. by destruct (dict_get name snapshot). Qed.

Lemma py_eq_JStr stored stamp : py_eq stored (JStr stamp) = true <-> stored = JStr stamp.
Proof.
  destruct stored; simpl; try (split; [done|by intros [=]]).
  unfold str_eqb. rewrite bool_decide_eq_true. split; [by intros ->|by intros [=]].
Qed.

Lemma unchanged_iff_same_stamp snapshot name stamp :
  unchanged (JObj snapshot) name (JStr stamp) = Ok true
  <-> dict_get name snapshot = Some (JStr stamp).
Proof.
  rewrite unchanged_dict. destruct (dict_get name snapshot) as [stored|].
  - split.
    + intros [= Heq]. apply py_eq_JStr in Heq. by subst.
    + intros [= ->]. f_equal. by apply py_eq_JStr.
  - split; by intros [=].
Qed.

(** X4. The converse of the skip rule: for a descriptor with a string
    stamp and a snapshot that is a mapping, the call skips if and only
    if the snapshot holds exactly that string under the file name. A
    missing entry, another string, or a value that is not a string
    never makes it skip. *)
Theorem skips_exactly_on_same_stamp e dataset snapshot w title name stamp :
  title_of dataset = Ok title ->
  file_name_of dataset = Ok name ->
  modified_of dataset = Ok (JStr stamp) ->
  download_and_process e dataset (JObj snapshot) w
    = (Ok None, observe w [EvPrint (Skipping name)])
  <-> dict_get name snapshot = Some (JStr stamp).
Proof.
  intros Ht Hn Hm. split; [|by apply (download_and_process_skips _ _ _ _ title)].
  unfold file_name_of in Hn.
  destruct (download_url_of dataset) as [url|] eqn:Hu; [|done]. simpl in Hn.
  rewrite download_and_process_unfold. unfold read_descriptor.
  rewrite Ht, Hm, Hu. simpl. rewrite Hn. simpl.
  destruct (unchanged (JObj snapshot) name (JStr stamp)) as [[]|] eqn:Hs; simpl.
  - intros _. by apply unchanged_iff_same_stamp.
  - intros Hcall. exfalso.
    assert (Htr : exists evs, trace w ++ EvPrint (Downloading title url) :: evs
                              = trace w ++ [EvPrint (Skipping name)]).
    { destruct (read_csv e url) as [df|];
        [destruct (write_fault e (output_path name) (to_csv_text (rename_columns df)))|];
        apply (f_equal (fun r => trace r.2)) in Hcall; simpl in Hcall;
        eexists; exact Hcall. }
    destruct Htr as [evs Htr]. by apply app_inv_head in Htr.
  - by rewrite unchanged_dict in Hs.
Qed.

(** X5. A dataset that is new or whose stamp changed is fetched, and
    fetched once: the call prints the download line, calls [read_csv]
    on the URL, and whatever follows (writing, success or failure) has
    no other fetch; the call returns without raising. *)
Theorem changed_or_new_is_fetched_once e dataset snapshot w title url name stamp :
  title_of dataset = Ok title ->
  download_url_of dataset = Ok url ->
  url_file_name url = Ok name ->
  modified_of dataset = Ok (JStr stamp) ->
  dict_get name snapshot <> Some (JStr stamp) ->
  exists result evs,
    (download_and_process e dataset (JObj snapshot) w).1 = Ok result
    /\ trace (download_and_process e dataset (JObj snapshot) w).2
       = trace w ++ EvPrint (Downloading title url) :: EvReadCsv url :: evs
    /\ Forall not_read_csv evs.
Proof.
  intros Ht Hu Hn Hm Hne.
  rewrite download_and_process_unfold.
  rewrite (read_descriptor_Ok _ _ title (JStr stamp) url name false); try done.
  - simpl. destruct (read_csv e url) as [df|];
      [destruct (write_fault e (output_path name) (to_csv_text (rename_columns df)))|];
      simpl; eexists _, _; (split; [reflexivity|]); (split; [reflexivity|]);
      repeat constructor.
  - rewrite unchanged_dict. f_equal.
    destruct (dict_get name snapshot) as [stored|]; [|done].
    destruct (py_eq stored (JStr stamp)) eqn:Heq; [|done].
    apply py_eq_JStr in Heq. by subst.
Qed.

(** X6. With a descriptor that is an object and a snapshot that is a
    mapping, the call raises in two cases only: the title is missing
    ([KeyError]), or the file name cannot be derived from the
    distribution's URL. It then has no effect at all. No failure of
    the network or of the disk makes the call raise. *)
Theorem raises_only_when_reading_descriptor e fields snapshot w err :
  ((download_and_process e (JObj fields) (JObj snapshot) w).1 = Raise err
   <-> (dict_get (py "title") fields = None /\ err = KeyError)
       \/ (is_Some (dict_get (py "title") fields)
           /\ file_name_of (JObj fields) = Raise err))
  /\ ((download_and_process e (JObj fields) (JObj snapshot) w).1 = Raise err ->
      (download_and_process e (JObj fields) (JObj snapshot) w).2 = w).
Proof.
  rewrite download_and_process_unfold. unfold read_descriptor, title_of, file_name_of.
  simpl py_getitem. simpl modified_of.
  destruct (dict_get (py "title") fields) as [title|]; simpl.
  2:{ split; [|done]. split; [intros [= <-]; by left|].
      intros [[_ ->]|[[x Hx] _]]; done. }
  destruct (download_url_of (JObj fields)) as [url|e1]; simpl.
  2:{ split; [|done]. split; [intros [= <-]; right; by split; [eexists|]|].
      intros [[? _]|[_ [= ->]]]; done. }
  destruct (url_file_name url) as [name|e2]; simpl.
  2:{ split; [|done]. split; [intros [= <-]; right; by split; [eexists|]|].
      intros [[? _]|[_ [= ->]]]; done. }
  rewrite unchanged_dict. simpl.
  assert (Hok : forall r : res (option (str * json)) * world,
            (exists x, r.1 = Ok x) ->
            (r.1 = Raise err <-> (Some title = None /\ err = KeyError)
                                 \/ (is_Some (Some title) /\ Ok name = Raise err))
            /\ (r.1 = Raise err -> r.2 = w)).
  { intros r [x Hx]. rewrite Hx. split; [|done]. split; [done|].
    intros [[? _]|[_ ?]]; done. }
  apply Hok.
  destruct (match dict_get name snapshot with
            | Some stored => py_eq stored _
            | None => false
            end); [by eexists|].
  destruct (read_csv e url) as [df|]; [|by eexists].
  destruct (write_fault e (output_path name) (to_csv_text (rename_columns df)));
    by eexists.
Qed.

End ProcessorCases.

(** ** Pipeline orchestrator: what a run leaves behind *)

Section RunOutcomes.
Context `{Unicode} `{PyNumber} `{UrlLib} `{Pandas}.

Lemma collect_app l1 l2 updated_metadata :
  collect (l1 ++ l2) updated_metadata
  = (updated ← collect l1 updated_metadata; collect l2 updated).
Proof.
  revert updated_metadata. induction l1 as [|f l1 IH]; intros u; simpl; [done|].
  destruct f as [[[name modified]|]|]; simpl; [|apply IH|done].
  destruct (py_setitem u name modified); simpl; [apply IH|done].
Qed.

(** The loop over the futures, started on a mapping, ends on a
    mapping that has the keys it started with; every entry it holds is
    one it started with or one returned by a future. *)
Lemma collect_entries futures d updated :
  collect futures (JObj d) = Ok updated ->
  exists final,
    updated = JObj final
    /\ (forall k, is_Some (dict_get k d) -> is_Some (dict_get k final))
    /\ (forall k v, dict_get k final = Some v ->
          dict_get k d = Some v \/ In (Ok (Some (k, v))) futures).
Proof.
  revert d. induction futures as [|f fs IH]; intros d; simpl.
  - intros [= <-]. exists d. repeat split; auto.
  - destruct f as [[[n m]|]|]; simpl; [| |done].
    + intros Hc. destruct (IH _ Hc) as (final & -> & Hkeys & Hfrom).
      exists final. split; [done|]. split.
      * intros k Hk. apply Hkeys. rewrite dict_get_set.
        by destruct (str_eqb k n).
      * intros k v Hv. destruct (Hfrom k v Hv) as [Hd|Hin]; [|by right; right].
        rewrite dict_get_set in Hd. unfold str_eqb in Hd.
        destruct (bool_decide_reflect (k = n)) as [->|]; [|by left].
        injection Hd as ->. right. by left.
    + intros Hc. destruct (IH _ Hc) as (final & -> & Hkeys & Hfrom).
      exists final. split; [done|]. split; [done|].
      intros k v Hv. destruct (Hfrom k v Hv); [by left|by right; right].
Qed.

(** A run that completes has written the dump of what the loop over
    the futures returned. *)
Lemma main_completes e w last datasets :
  (load_metadata w).1 = Ok (JObj last) ->
  catalog e = Ok datasets ->
  (main e w).1 = Ok tt ->
  exists updated,
    collect (map (task_result e (JObj last)) datasets) (JObj last) = Ok updated
    /\ files (main e w).2 !! METADATA_FILE = Some (json_dumps updated)
    /\ (main e w).2
       = (save_metadata e updated
            (run_tasks (map (fun d => download_and_process e d (JObj last)) datasets)
               (observe w [EvMkdir OUTPUT_DIR; EvHttpGet SOURCE_URL])).2).2.
Proof.
  intros Hload Hcat. rewrite main_unfold, Hload. simpl py_copy. cbv iota.
  rewrite Hcat. cbv zeta. rewrite run_tasks_results.
  destruct (collect (map (task_result e (JObj last)) datasets) (JObj last))
    as [updated|]; [|done].
  intros Hsave. exists updated. split; [done|]. split; [|done].
  rewrite save_metadata_cases in *.
  destruct (write_fault e METADATA_FILE (json_dumps updated)); [|done..].
  simpl. by rewrite lookup_insert_eq.
Qed.


(** X7. A run over an empty catalog downloads nothing and writes the
    loaded snapshot back: its operations are the directory, the
    request, the directory again and the write of the metadata, and
    the only file that changes is the metadata file, which then holds
    the dump of the snapshot (an empty object when there was no file). *)
Theorem empty_catalog_rewrites_snapshot e w last :
  catalog e = Ok [] ->
  (load_metadata w).1 = Ok (JObj last) ->
  write_fault e METADATA_FILE (json_dumps (JObj last)) = NoFault ->
  main e w
  = (Ok tt,
     {| files := <[METADATA_FILE := json_dumps (JObj last)]> (files w);
        trace := trace w ++ [EvMkdir OUTPUT_DIR; EvHttpGet SOURCE_URL;
                             EvMkdir OUTPUT_DIR; EvJsonDump METADATA_FILE] |})
  /\ (files w !! METADATA_FILE = None ->
      files (main e w).2 !! METADATA_FILE = Some (py "{}")).
Proof.
  intros Hcat Hload Hw.
  assert (Hmain : main e w
    = (Ok tt,
       {| files := <[METADATA_FILE := json_dumps (JObj last)]> (files w);
          trace := trace w ++ [EvMkdir OUTPUT_DIR; EvHttpGet SOURCE_URL;
                               EvMkdir OUTPUT_DIR; EvJsonDump METADATA_FILE] |})).
  { rewrite main_unfold, Hload. simpl py_copy. cbv iota. rewrite Hcat. simpl.
    rewrite save_metadata_cases, Hw. simpl. by rewrite <- app_assoc. }
  split; [done|]. intros Hnone. rewrite Hmain. simpl. rewrite lookup_insert_eq.
  unfold load_metadata in Hload. rewrite Hnone in Hload. simpl in Hload.
  by injection Hload as <-.
Qed.

(** X8. A run that completes never removes an entry of the snapshot:
    the snapshot it writes has every file name the prior one had, and
    each of its entries is either the prior entry or the file name and
    stamp of a dataset of this run. *)
Theorem run_keeps_every_entry e w last datasets :
  (load_metadata w).1 = Ok (JObj last) ->
  catalog e = Ok datasets ->
  (main e w).1 = Ok tt ->
  exists final,
    files (main e w).2 !! METADATA_FILE = Some (json_dumps (JObj final))
    /\ (forall name, is_Some (dict_get name last) -> is_Some (dict_get name final))
    /\ (forall name stamp, dict_get name final = Some stamp ->
          dict_get name last = Some stamp
          \/ exists d, In d datasets /\ file_name_of d = Ok name
                       /\ modified_of d = Ok stamp).
Proof.
  intros Hload Hcat Hrun.
  destruct (main_completes e w last datasets Hload Hcat Hrun) as (updated & Hc & Hfile & _).
  destruct (collect_entries _ _ _ Hc) as (final & -> & Hkeys & Hfrom).
  exists final. split; [done|]. split; [done|].
  intros name stamp Hs. destruct (Hfrom name stamp Hs) as [Hl|Hin]; [by left|].
  right. apply in_map_iff in Hin as (d & Hr & Hin).
  apply task_result_Some in Hr as [Hn Hm]. by exists d.
Qed.

(** X9. In a run that completes, a dataset that was downloaded is
    recorded: the snapshot written maps its file name to its stamp,
    provided no later dataset of the catalog has the same file name. *)
Theorem downloaded_dataset_is_recorded e w last before d after name stamp :
  (load_metadata w).1 = Ok (JObj last) ->
  catalog e = Ok (before ++ d :: after) ->
  task_result e (JObj last) d = Ok (Some (name, stamp)) ->
  (forall d', In d' after -> file_name_of d' <> Ok name) ->
  (main e w).1 = Ok tt ->
  exists final,
    files (main e w).2 !! METADATA_FILE = Some (json_dumps (JObj final))
    /\ dict_get name final = Some stamp.
Proof.
  intros Hload Hcat Hd Hafter Hrun.
  destruct (main_completes e w last _ Hload Hcat Hrun) as (updated & Hc & Hfile & _).
  rewrite map_app, collect_app in Hc. simpl in Hc.
  destruct (collect (map (task_result e (JObj last)) before) (JObj last))
    as [mid|] eqn:Hbefore; [|done].
  destruct (collect_entries _ _ _ Hbefore) as (dmid & -> & _ & _).
  simpl in Hc. rewrite Hd in Hc. simpl in Hc.
  destruct (collect_entries _ _ _ Hc) as (final & -> & _ & _).
  exists final. split; [done|].
  rewrite (collect_lookup _ _ _ name Hc).
  - rewrite dict_get_set. unfold str_eqb. by rewrite bool_decide_eq_true_2.
  - intros m Hin. apply in_map_iff in Hin as (d' & Hr & Hin).
    apply task_result_Some in Hr as [Hn _]. by apply (Hafter d').
Qed.

Lemma run_tasks_app {A} (t1 t2 : list (M A)) w :
  run_tasks (t1 ++ t2) w
  = ((run_tasks t1 w).1 ++ (run_tasks t2 (run_tasks t1 w).2).1,
     (run_tasks t2 (run_tasks t1 w).2).2).
Proof.
  revert w. induction t1 as [|t t1 IH]; intros w; simpl.
  - by destruct (run_tasks t2 w).
  - destruct (t w) as [r w1]. rewrite IH.
    destruct (run_tasks t1 w1) as [rs w2]. simpl.
    by destruct (run_tasks t2 w2).
Qed.

Lemma save_metadata_effects e metadata w :
  (exists evs, trace (save_metadata e metadata w).2 = trace w ++ evs)
  /\ forall p, p <> METADATA_FILE ->
       files (save_metadata e metadata w).2 !! p = files w !! p.
Proof.
  rewrite save_metadata_cases.
  destruct (write_fault e METADATA_FILE (json_dumps metadata)); simpl;
    (split; [by eexists|]); intros p Hp; try done; by rewrite lookup_insert_ne.
Qed.

(** Whatever the run does after the tasks, it keeps their operations
    and, outside the metadata file, their files. *)
Lemma main_after_tasks e w last datasets :
  (load_metadata w).1 = Ok (JObj last) ->
  catalog e = Ok datasets ->
  let after_tasks :=
    (run_tasks (map (fun d => download_and_process e d (JObj last)) datasets)
       (observe w [EvMkdir OUTPUT_DIR; EvHttpGet SOURCE_URL])).2 in
  (exists evs, trace (main e w).2 = trace after_tasks ++ evs)
  /\ forall p, p <> METADATA_FILE -> files (main e w).2 !! p = files after_tasks !! p.
Proof.
  intros Hload Hcat. cbv zeta. rewrite main_unfold, Hload. simpl py_copy. cbv iota.
  rewrite Hcat. cbv zeta.
  destruct (collect _ _) as [updated|]; [apply save_metadata_effects|].
  simpl. split; [|done]. exists []. by rewrite app_nil_r.
Qed.

(** X10. Every dataset of the catalog that is not skipped is fetched
    during the run, also when the run ends with an exception raised
    for another descriptor or by the final write: its [read_csv]
    is among the operations of the run. *)
Theorem every_changed_dataset_is_fetched e w last datasets d title modified url name :
  (load_metadata w).1 = Ok (JObj last) ->
  catalog e = Ok datasets ->
  In d datasets ->
  read_descriptor d (JObj last) = Ok (title, modified, url, name, false) ->
  In (EvReadCsv url) (trace (main e w).2).
Proof.
  intros Hload Hcat Hin Hd.
  destruct (main_after_tasks e w last datasets Hload Hcat) as [[evs ->] _].
  apply in_or_app. left.
  apply in_split in Hin as (before & after & ->).
  rewrite map_app, run_tasks_app. simpl.
  set (w1 := (run_tasks (map _ before) _).2).
  assert (Hcall : In (EvReadCsv url)
                    (trace (download_and_process e d (JObj last) w1).2)).
  { rewrite download_and_process_unfold, Hd. simpl.
    destruct (read_csv e url) as [df|];
      [destruct (write_fault e (output_path name) (to_csv_text (rename_columns df)))|];
      simpl; apply in_or_app; right; right; by left. }
  destruct (download_and_process e d (JObj last) w1) as [r w2]. simpl in Hcall.
  destruct (run_tasks_effects e (JObj last) after w2) as (evs2 & Ht & _).
  destruct (run_tasks (map _ after) w2) as [rs w3]. simpl in *.
  rewrite Ht. apply in_or_app. by left.
Qed.

(** X11. A metadata file that holds JSON which is neither an object
    nor an array ([null], a boolean, a number, a string) is read
    without complaint by [load_metadata], and the run then raises at
    the copy of the snapshot: after the directory was created, before
    any request, with no file changed. *)
Theorem scalar_metadata_aborts_run e w v :
  (load_metadata w).1 = Ok v ->
  match v with JObj _ | JArr _ => False | _ => True end ->
  main e w = (Raise TypeError, observe w [EvMkdir OUTPUT_DIR]).
Proof.
  intros Hload Hv. rewrite main_unfold, Hload. by destruct v.
Qed.

(** X12. With a metadata file that holds a JSON array, nothing can be
    recorded: as soon as one dataset of the catalog is downloaded, or
    has its file name in the array, the run ends with an exception and
    the metadata is not written. *)
Theorem array_metadata_aborts_run e w l datasets d :
  (load_metadata w).1 = Ok (JArr l) ->
  catalog e = Ok datasets ->
  In d datasets ->
  task_result e (JArr l) d <> Ok None ->
  exists err evs,
    (main e w).1 = Raise err
    /\ trace (main e w).2 = trace w ++ evs
    /\ Forall not_json_dump evs.
Proof.
  intros Hload Hcat Hin Hd.
  rewrite main_unfold, Hload. simpl py_copy. cbv iota. rewrite Hcat. cbv zeta.
  set (w2 := observe w [EvMkdir OUTPUT_DIR; EvHttpGet SOURCE_URL]).
  destruct (run_tasks_effects e (JArr l) datasets w2) as (evs & Ht & Hj & _).
  rewrite run_tasks_results.
  assert (Hc : exists err, collect (map (task_result e (JArr l)) datasets) (JArr l)
                           = Raise err).
  { clear Ht Hj Hcat. induction datasets as [|d' ds IH]; [done|]. simpl.
    destruct (task_result e (JArr l) d') as [[[n m]|]|err] eqn:Hr; simpl;
      [by eexists| |by eexists].
    destruct Hin as [->|Hin]; [done|]. by apply IH. }
  destruct Hc as [err ->]. simpl.
  exists err, ([EvMkdir OUTPUT_DIR; EvHttpGet SOURCE_URL] ++ evs).
  split; [done|]. split.
  - rewrite Ht. subst w2. simpl. by rewrite <- app_assoc.
  - apply Forall_app. split; [repeat constructor|done].
Qed.


Lemma dict_set_keys {V} (k : str) (v : V) (d : list (str * V)) :
  In k (map fst d) -> map fst (dict_set k v d) = map fst d.
Proof.
  induction d as [|[k' v'] d IH]; simpl; [done|].
  unfold str_eqb. destruct (bool_decide_reflect (k = k')) as [->|Hne]; [done|].
  intros [Heq|Hin]; [congruence|]. simpl. by rewrite IH.
Qed.

Lemma string_snapshot_set name stamp snapshot :
  string_snapshot snapshot ->
  is_text name = true -> is_text stamp = true ->
  string_snapshot (dict_set name stamp snapshot).
Proof.
  intros [Hnd Htext] Hn Hs. split.
  - destruct (decide (name ∈ map fst snapshot)) as [Hin|Hout].
    + rewrite dict_set_keys; [done|]. by apply list_elem_of_In.
    + rewrite dict_set_fresh by (by rewrite <- list_elem_of_In).
      rewrite map_app. simpl. apply NoDup_app. split; [done|]. split.
      * intros x Hx Hx'. apply list_elem_of_singleton in Hx'. by subst.
      * apply NoDup_singleton.
  - clear Hnd. induction Htext as [|[k v] d Hkv Hd IH]; simpl.
    + by repeat constructor.
    + destruct Hkv as [Hk Hv]. simpl in Hk, Hv.
      destruct (str_eqb name k); constructor; simpl; auto.
Qed.

Lemma dict_set_snapshot_json name stamp snapshot :
  dict_set name (JStr stamp) (map (fun kv : str * str => (kv.1, JStr kv.2)) snapshot)
  = map (fun kv : str * str => (kv.1, JStr kv.2)) (dict_set name stamp snapshot).
Proof.
  induction snapshot as [|[k v] d IH]; simpl; [done|].
  destruct (str_eqb name k); simpl; [done|]. by rewrite IH.
Qed.

(** The loop over the futures keeps a mapping from text to text one,
    when the futures return text. *)
Lemma collect_string_snapshot futures snapshot :
  string_snapshot snapshot ->
  Forall (fun f => match f with
                   | Ok None => True
                   | Ok (Some (name, JStr stamp)) =>
                       is_text name = true /\ is_text stamp = true
                   | _ => False
                   end) futures ->
  exists final,
    collect futures (snapshot_json snapshot) = Ok (snapshot_json final)
    /\ string_snapshot final.
Proof.
  intros Hs Hf. revert snapshot Hs.
  induction Hf as [|f fs Hhead _ IH]; intros snapshot Hs; simpl; [by exists snapshot|].
  destruct f as [[[name [| | |stamp| |]]|]|]; try done; simpl.
  - destruct Hhead as [Hn Hm]. rewrite dict_set_snapshot_json.
    apply IH. by apply string_snapshot_set.
  - by apply IH.
Qed.

(** X14. The snapshot stays loadable from run to run: when the prior
    snapshot is a mapping from text to text and the file names and
    stamps of the catalog are text, a run that completes leaves a
    metadata file from which [load_metadata] reads a mapping from text
    to text again, namely the one the run computed. *)
Theorem completed_run_is_loadable e w prior datasets :
  string_snapshot prior ->
  (load_metadata w).1 = Ok (snapshot_json prior) ->
  catalog e = Ok datasets ->
  (forall d name modified,
      In d datasets -> file_name_of d = Ok name -> modified_of d = Ok modified ->
      is_text name = true
      /\ exists stamp, modified = JStr stamp /\ is_text stamp = true) ->
  (main e w).1 = Ok tt ->
  exists final,
    string_snapshot final
    /\ collect (map (task_result e (snapshot_json prior)) datasets) (snapshot_json prior)
       = Ok (snapshot_json final)
    /\ load_metadata (main e w).2 = (Ok (snapshot_json final), (main e w).2).
Proof.
  intros Hprior Hload Hcat Htext Hrun.
  destruct (main_completes e w _ datasets Hload Hcat Hrun) as (updated & Hc & Hfile & _).
  destruct (collect_string_snapshot
              (map (task_result e (snapshot_json prior)) datasets) prior Hprior)
    as (final & Hfinal & Hs).
  { apply collect_Ok in Hc. apply List.Forall_forall. intros f Hin.
    rewrite List.Forall_forall in Hc. destruct (Hc f Hin) as [r ->].
    apply in_map_iff in Hin as (d & Hr & Hin).
    destruct r as [[name modified]|]; [|done].
    apply task_result_Some in Hr as [Hn Hm].
    destruct (Htext d name modified Hin Hn Hm) as (Hname & stamp & -> & Hstamp).
    by split. }
  exists final. split; [done|]. split; [done|].
  assert (Ok updated = Ok (snapshot_json final)) as [= ->]
    by (rewrite <- Hc; exact Hfinal).
  unfold load_metadata. rewrite Hfile.
  by rewrite json_loads_dumps_snapshot.
Qed.

End RunOutcomes.

(** ** Name normalizer: the result, word by word *)

Section NormalizerWords.
Context `{Unicode}.

Lemma lstrip_all p l z : forallb p l = true -> lstrip p (l ++ z) = lstrip p z.
Proof.
  induction l as [|c l IH]; simpl; [done|].
  intros Hl. apply andb_true_iff in Hl as [-> Hl]. by apply IH.
Qed.

Lemma lstrip_none p z : (forall c, head z = Some c -> p c = false) -> lstrip p z = z.
Proof. destruct z as [|c z]; simpl; [done|]. intros Hz. by rewrite (Hz c). Qed.

Lemma forallb_rev_true (p : N -> bool) l : forallb p l = true -> forallb p (rev l) = true.
Proof.
  induction l as [|c l IH]; simpl; [done|].
  intros Hl. apply andb_true_iff in Hl as [Hc Hl].
  rewrite forallb_app. simpl. by rewrite IH, Hc.
Qed.

(** What is between underscores that are stripped. *)
Lemma strip_between p l y r :
  forallb p l = true -> forallb p r = true ->
  (forall c, head y = Some c -> p c = false) ->
  (forall c, last y = Some c -> p c = false) ->
  (y = [] -> r = []) ->
  strip p (l ++ y ++ r) = y.
Proof.
  intros Hl Hr Hh Hlast Hy. unfold strip, rstrip.
  rewrite lstrip_all by done.
  destruct y as [|a y].
  - rewrite Hy by done. done.
  - rewrite (lstrip_none p ((a :: y) ++ r)) by (simpl; intros c [= <-]; by apply Hh).
    rewrite rev_app_distr, lstrip_all by (by apply forallb_rev_true).
    rewrite lstrip_none; [by rewrite rev_involutive|].
    intros c Hc. apply Hlast. rewrite <- Hc.
    generalize (a :: y). intros l0. destruct l0 as [|b l0] using rev_ind; [done|].
    by rewrite rev_app_distr, last_snoc.
Qed.

(** The words of a string: none is empty, none holds whitespace, and
    their characters are characters of the string. *)
Lemma split_ws_words (Q : N -> Prop) s :
  Forall Q s ->
  Forall (fun w => w <> [] /\ Forall (fun c => isspace c = false /\ Q c) w) (split_ws s).
Proof.
  induction 1 as [|c s Hq Hs IH]; simpl; [done|].
  destruct (isspace c) eqn:Hc; [done|].
  destruct s as [|c' s']; [by repeat constructor|].
  destruct (isspace c') eqn:Hc'.
  - constructor; [|done]. by repeat constructor.
  - destruct (split_ws (c' :: s')) as [|w ws]; [by repeat constructor|].
    apply Forall_cons in IH as [[_ Hw] Hws].
    constructor; [|done]. split; [done|]. by constructor.
Qed.

Lemma join_with_ends sep (P : N -> Prop) l :
  Forall (fun w => w <> [] /\ Forall P w) l ->
  (forall c, head (join_with sep l) = Some c -> P c)
  /\ (forall c, last (join_with sep l) = Some c -> P c)
  /\ (join_with sep l = [] -> l = []).
Proof.
  induction 1 as [|w l [Hne Hw] Hl IH]; simpl; [done|].
  destruct w as [|a w]; [done|].
  assert (Ha : P a) by (by apply Forall_cons in Hw as [Ha _]).
  destruct l as [|w' l'].
  - split; [by intros c [= <-]|]. split; [|done].
    intros c Hc. apply last_Some_elem_of in Hc.
    rewrite Forall_forall in Hw. by apply Hw.
  - destruct IH as (_ & IHlast & IHnil).
    split; [by intros c [= <-]|]. split; [|done].
    intros c Hc. apply IHlast.
    change (last ((a :: w) ++ sep :: join_with sep (w' :: l')) = Some c) in Hc.
    apply last_Some in Hc as [pre Hc].
    destruct (join_with sep (w' :: l')) as [|b j] eqn:Hj using rev_ind;
      [by specialize (IHnil eq_refl)|].
    clear IHj. rewrite last_snoc. f_equal.
    change ((a :: w) ++ (sep :: j) ++ [b] = pre ++ [c]) in Hc.
    rewrite app_assoc in Hc. by apply app_inj_tail in Hc as [_ ->].
Qed.

(** What [collapse_ws] makes of a string: its words joined by
    underscores, with one more underscore in front when the string
    starts with whitespace, and one behind when it ends with
    whitespace after a word. *)
Lemma collapse_ws_words t :
  exists tail,
    (tail = [] \/ tail = [underscore])
    /\ (split_ws t = [] -> tail = [])
    /\ collapse_ws true t = join_with underscore (split_ws t) ++ tail
    /\ collapse_ws false t
       = (if starts_with_space t then [underscore] else [])
         ++ join_with underscore (split_ws t) ++ tail.
Proof.
  induction t as [|c t IH]; [by exists []; auto|].
  destruct IH as (tail & Htail & Hnil & Htrue & Hfalse).
  simpl. destruct (isspace c) eqn:Hc.
  - exists tail. repeat split; try done. simpl. by rewrite Htrue.
  - destruct t as [|c' t'].
    + exists []. by repeat split; auto.
    + simpl starts_with_space in Hfalse. destruct (isspace c') eqn:Hc'.
      * rewrite Hfalse. destruct (split_ws (c' :: t')) as [|w ws] eqn:Hw.
        -- rewrite Hnil by done. exists [underscore]. repeat split; auto. done.
        -- exists tail. repeat split; auto; try done;
             simpl; by rewrite <- app_assoc.
      * destruct (split_ws (c' :: t')) as [|w ws] eqn:Hw.
        -- exfalso. rewrite Hnil in Hfalse by done. simpl in Hfalse.
           by rewrite Hc' in Hfalse.
        -- rewrite Hfalse. exists tail. repeat split; auto; try done;
             simpl; by destruct ws.
Qed.

(** The strings [snake_case] works on after the removal. *)
Lemma strip_collapse_words t :
  Forall (fun c => keep_char c = true) t ->
  strip is_underscore (collapse_ws false t) = join_with underscore (split_ws t).
Proof.
  intros Ht.
  destruct (collapse_ws_words t) as (tail & Htail & Hnil & _ & ->).
  destruct (join_with_ends underscore (fun c => is_underscore c = false) (split_ws t))
    as (Hhead & Hlast & Hempty).
  { eapply Forall_impl; [by apply (split_ws_words (fun c => keep_char c = true))|].
    intros w [Hne Hw]. split; [done|]. eapply Forall_impl; [exact Hw|].
    intros c [_ Hk]. by apply keep_char_not_underscore. }
  apply strip_between; try done.
  - by destruct (starts_with_space t).
  - by destruct Htail as [->| ->].
  - intros Hj. apply Hnil. by apply Hempty.
Qed.

(** X15. The result of [snake_case] is made of the words of the
    header joined by single underscores, where the header is first
    trimmed, lowered and rid of every character other than [a-z],
    [0-9] and whitespace, and a word is a maximal run without
    whitespace of what is left. *)
Theorem snake_case_words (s : str) :
  snake_case s
  = join_with underscore (split_ws (remove_special (lower (strip isspace s)))).
Proof.
  unfold snake_case. apply strip_collapse_words.
  apply List.Forall_forall. intros c Hc. by apply filter_In in Hc as [_ Hc].
Qed.

Lemma alnum_not_space c : is_az c || is_digit c = true -> isspace c = false.
Proof.
  unfold is_az, is_digit. rewrite orb_true_iff, !andb_true_iff, !N.leb_le.
  intros Hc. unfold isspace.
  rewrite (proj2 (N.leb_gt c 13)), (proj2 (N.leb_gt c 32)) by lia.
  rewrite (proj2 (N.eqb_neq c 0x85)), (proj2 (N.eqb_neq c 0xA0)) by lia.
  rewrite (proj2 (N.eqb_neq c 0x1680)), (proj2 (N.leb_gt 0x2000 c)) by lia.
  rewrite (proj2 (N.eqb_neq c 0x2028)), (proj2 (N.eqb_neq c 0x2029)) by lia.
  rewrite (proj2 (N.eqb_neq c 0x202F)), (proj2 (N.eqb_neq c 0x205F)) by lia.
  rewrite (proj2 (N.eqb_neq c 0x3000)) by lia.
  by rewrite !andb_false_r.
Qed.


Lemma strip_nothing p s : Forall (fun c => p c = false) s -> strip p s = s.
Proof.
  intros Hs. rewrite <- (app_nil_r s) at 1.
  apply (strip_between p [] s []); try done.
  - intros c Hc. apply head_Some_elem_of in Hc. rewrite Forall_forall in Hs. by apply Hs.
  - intros c Hc. apply last_Some_elem_of in Hc. rewrite Forall_forall in Hs. by apply Hs.
Qed.

Lemma collapse_ws_nothing in_run s :
  Forall (fun c => isspace c = false) s -> collapse_ws in_run s = s.
Proof.
  intros Hs. revert in_run. induction Hs as [|c s Hc _ IH]; intros in_run; simpl; [done|].
  by rewrite Hc, IH.
Qed.

(** X17. Underscores of the header are deleted, not kept: on a
    header made of [a-z], [0-9] and [_] only, that is, on any result
    of [snake_case], the function returns the header without its
    underscores. A name that is already in snake case loses its
    word boundaries. *)
Theorem snake_case_drops_underscores (s : str) :
  Forall (fun c => ident_char c = true) s ->
  snake_case s = List.filter (fun c => negb (is_underscore c)) s.
Proof.
  intros Hs.
  assert (Hcases : Forall (fun c => (is_underscore c = true /\ keep_char c = false
                                     \/ is_underscore c = false /\ keep_char c = true)
                                    /\ isspace c = false /\ is_ascii c = true
                                    /\ ascii_lower c = c) s).
  { eapply Forall_impl; [exact Hs|]. intros c Hc. unfold ident_char in Hc.
    destruct (is_az c || is_digit c) eqn:Ha.
    - pose proof (alnum_not_space c Ha) as Hsp. split; [|split; [done|]].
      + right. split; [|by unfold keep_char; rewrite Ha].
        apply keep_char_not_underscore. unfold keep_char. by rewrite Ha.
      + unfold is_az, is_digit in Ha. rewrite orb_true_iff, !andb_true_iff, !N.leb_le in Ha.
        unfold is_ascii, ascii_lower. split; [apply N.ltb_lt; lia|].
        destruct (N.leb_spec c 90); [|by rewrite andb_false_r].
        by rewrite (proj2 (N.leb_gt 65 c)) by lia.
    - simpl in Hc. unfold is_underscore in Hc. apply N.eqb_eq in Hc. subst c.
      split; [by left|]. by vm_compute. }
  unfold snake_case.
  assert (Hstrip : strip isspace s = s).
  { apply strip_nothing. eapply Forall_impl; [exact Hcases|]. by intros c (_ & ? & _). }
  assert (Hlower : lower s = s).
  { unfold lower. clear Hs Hstrip.
    assert (Hall : forallb is_ascii s = true /\ map ascii_lower s = s).
    { induction Hcases as [|c s (_ & _ & Hascii & Hlow) _ [IH1 IH2]]; [done|].
      simpl. by rewrite Hascii, IH1, Hlow, IH2. }
    destruct Hall as [-> ->]. done. }
  rewrite Hstrip, Hlower.
  assert (Hfilter : remove_special s = List.filter (fun c => negb (is_underscore c)) s).
  { unfold remove_special. clear Hs Hstrip Hlower.
    induction Hcases as [|c s (Hc & _) _ IH]; [done|]. simpl.
    destruct Hc as [[-> ->]|[-> ->]]; simpl; by rewrite IH. }
  rewrite Hfilter.
  assert (Hclean : Forall (fun c => isspace c = false /\ is_underscore c = false)
                     (List.filter (fun c => negb (is_underscore c)) s)).
  { apply List.Forall_forall. intros c Hc. apply filter_In in Hc as [Hin Hc].
    rewrite List.Forall_forall in Hcases. destruct (Hcases c Hin) as (_ & Hsp & _).
    split; [done|]. by apply negb_true_iff. }
  rewrite collapse_ws_nothing by (eapply Forall_impl; [exact Hclean|]; by intros c [? _]).
  apply strip_nothing. eapply Forall_impl; [exact Hclean|]. by intros c [_ ?].
Qed.

End NormalizerWords.

(** * The statements at work on the sample *)

Import Sample.

Lemma snake_case_identifier_witness :
  snake_case (py "Patient Survey  Score!") = py "patient_survey_score".
Proof.
  destruct (snake_case_identifier (py "Patient Survey  Score!")) as (_ & _ & _ & _ & Hrun).
  rewrite (Hrun (py "patient") (py " ") (py "survey  score")); try done.
  - intros c [= <-]. reflexivity.
  - intros c [= <-]. reflexivity.
Defined.

Lemma skip_when_unchanged_witness :
  download_and_process (env_fine []) hospital_a
    (JObj [(py "a.csv", JStr (py "2021-01-01"))]) empty_world
  = (Ok None, {| files := ∅; trace := [EvPrint (Skipping (py "a.csv"))] |}).
Proof.
  apply (skip_when_unchanged (env_fine []) hospital_a _ empty_world
           (JStr (py "General information")) (py "a.csv") (py "2021-01-01"));
    reflexivity.
Defined.



Lemma save_then_load_witness :
  load_metadata (save_metadata (env_fine []) (snapshot_json text_snapshot) empty_world).2
  = (Ok (snapshot_json text_snapshot),
     (save_metadata (env_fine []) (snapshot_json text_snapshot) empty_world).2).
Proof.
  apply (save_then_load (env_fine []) empty_world).
  - split; [|repeat constructor].
    apply (bool_decide_unpack _). by vm_compute.
  - reflexivity.
Defined.

Lemma load_metadata_absent_or_malformed_witness :
  load_metadata empty_world = (Ok (JObj []), empty_world)
  /\ main (env_fine [hospital_a]) broken_world
     = (Raise JSONDecodeError, observe broken_world [EvMkdir OUTPUT_DIR]).
Proof.
  split.
  - apply (load_metadata_absent_or_malformed (env_fine []) empty_world). reflexivity.
  - eapply (load_metadata_absent_or_malformed (env_fine [hospital_a]) broken_world);
      reflexivity.
Defined.


Lemma malformed_descriptor_aborts_run_witness :
  exists err,
    (main (env_fine [hospital_a; no_title]) earlier_world).1 = Raise err
    /\ files (main (env_fine [hospital_a; no_title]) earlier_world).2 !! METADATA_FILE
       = files earlier_world !! METADATA_FILE.
Proof.
  destruct (malformed_descriptor_aborts_run (env_fine [hospital_a; no_title]) earlier_world
              [hospital_a; no_title] no_title)
    as (_ & err & evs & Hrun & _ & _ & Hfile).
  - reflexivity.
  - right. by left.
  - left. by eexists.
  - exists err. split; [done|]. apply Hfile.
    intros d' name [<-|[<-|[]]] Hn; vm_compute in Hn; injection Hn as <-; by vm_compute.
Defined.

Lemma second_run_downloads_nothing_witness :
  exists evs,
    trace (main (env_a_down [hospital_a; hospital_c])
             (main (env_fine [hospital_a; hospital_c]) empty_world).2).2
    = trace (main (env_fine [hospital_a; hospital_c]) empty_world).2 ++ evs
    /\ Forall not_read_csv evs.
Proof.
  destruct (second_run_downloads_nothing
              (env_fine [hospital_a; hospital_c]) (env_a_down [hospital_a; hospital_c])
              empty_world (main (env_fine [hospital_a; hospital_c]) empty_world).2
              [hospital_a; hospital_c]
              [(py "a.csv", JStr (py "2021-01-01")); (py "c.csv", JStr (py "2021-01-03"))])
    as (names & evs & _ & Htrace & Hnone & _).
  - by vm_compute.
  - reflexivity.
  - reflexivity.
  - by vm_compute.
  - repeat constructor; eexists _, _; repeat split; reflexivity.
  - by exists evs.
Defined.

(** A write that stops half way: the call fails and returns no
    result, and the output file is then neither the earlier table nor
    the new one, but the first seven characters of the new one. *)
Lemma half_written_output :
  let '(r, w') := download_and_process (env_disk_full [hospital_a]) hospital_a
                    (JObj [(py "a.csv", JStr (py "2020-12-01"))]) earlier_world in
  let new_table := py "patient_survey_score,facility_id" ++ [10] ++ py "4,010001" ++ [10]
                   ++ py "5,010005" ++ [10] in
  r = Ok None
  /\ files earlier_world !! output_path (py "a.csv") = Some (py "old table")
  /\ transformed (env_disk_full [hospital_a]) (JStr (py url_a)) = Ok new_table
  /\ files w' !! output_path (py "a.csv") = Some (py "patient")
  /\ files w' !! output_path (py "a.csv") <> files earlier_world !! output_path (py "a.csv")
  /\ files w' !! output_path (py "a.csv") <> Some new_table.
Proof. vm_compute. repeat split; discriminate. Qed.

Lemma fetch_raises_iff_bad_entry_witness :
  fetch_hospital_datasets (env_fine [hospital_a; null_theme; hospital_c]) empty_world
  = (Raise TypeError, observe empty_world [EvHttpGet SOURCE_URL]).
Proof.
  apply (fetch_raises_iff_bad_entry (env_fine [hospital_a; null_theme; hospital_c])
           empty_world [hospital_a; null_theme; hospital_c]).
  - reflexivity.
  - right. left. reflexivity.
Defined.

Lemma fetch_of_non_array_witness :
  fetch_hospital_datasets
    {| http_get_json := fun _ => Ok (JObj [(py "error", JStr (py "not found"))]);
       read_csv := fun _ => Raise (EnvError 404);
       write_fault := fun _ _ => NoFault |} empty_world
  = (Raise TypeError, observe empty_world [EvHttpGet SOURCE_URL]).
Proof.
  exact (fetch_of_non_array
           {| http_get_json := fun _ => Ok (JObj [(py "error", JStr (py "not found"))]);
              read_csv := fun _ => Raise (EnvError 404);
              write_fault := fun _ _ => NoFault |}
           empty_world (JObj [(py "error", JStr (py "not found"))]) eq_refl).
Defined.

Lemma catalog_failure_aborts_run_witness :
  main env_offline earlier_world
  = (Raise (EnvError 500), observe earlier_world [EvMkdir OUTPUT_DIR; EvHttpGet SOURCE_URL]).
Proof.
  apply (catalog_failure_aborts_run env_offline earlier_world
           [(py "a.csv", JStr (py "2020-12-01"))] (EnvError 500)).
  - reflexivity.
  - by vm_compute.
Defined.

Lemma skips_exactly_on_same_stamp_witness :
  download_and_process (env_fine []) hospital_a
    (JObj [(py "a.csv", JStr (py "2020-12-01"))]) empty_world
  <> (Ok None, observe empty_world [EvPrint (Skipping (py "a.csv"))]).
Proof.
  intros Hskip.
  assert (Hiff := skips_exactly_on_same_stamp (env_fine []) hospital_a
                    [(py "a.csv", JStr (py "2020-12-01"))] empty_world
                    (JStr (py "General information")) (py "a.csv") (py "2021-01-01")).
  specialize (Hiff ltac:(reflexivity) ltac:(reflexivity) ltac:(reflexivity)).
  apply Hiff in Hskip. by vm_compute in Hskip.
Defined.

Lemma changed_or_new_is_fetched_once_witness :
  exists evs,
    trace (download_and_process (env_a_down []) hospital_a (JObj []) empty_world).2
    = EvPrint (Downloading (JStr (py "General information")) (JStr (py url_a)))
      :: EvReadCsv (JStr (py url_a)) :: evs
    /\ Forall not_read_csv evs.
Proof.
  destruct (changed_or_new_is_fetched_once (env_a_down []) hospital_a [] empty_world
              (JStr (py "General information")) (JStr (py url_a)) (py "a.csv")
              (py "2021-01-01"))
    as (result & evs & _ & Htrace & Hevs); [reflexivity..|done|].
  by exists evs.
Defined.

Lemma raises_only_when_reading_descriptor_witness :
  (download_and_process (env_fine []) no_url (JObj []) empty_world).1 = Raise TypeError.
Proof.
  apply (raises_only_when_reading_descriptor (env_fine [])
           [(py "title", JStr (py "No file")); (py "theme", JStr (py "Hospitals"));
            (py "modified", JStr (py "2021-01-05"))] [] empty_world TypeError).
  right. split; [by eexists|reflexivity].
Defined.

Lemma empty_catalog_rewrites_snapshot_witness :
  files (main (env_fine []) empty_world).2 !! METADATA_FILE = Some (py "{}").
Proof.
  apply (empty_catalog_rewrites_snapshot (env_fine []) empty_world []); reflexivity.
Defined.

Lemma run_keeps_every_entry_witness :
  exists final,
    files (main (env_fine [hospital_c]) earlier_world).2 !! METADATA_FILE
    = Some (json_dumps (JObj final))
    /\ is_Some (dict_get (py "a.csv") final).
Proof.
  destruct (run_keeps_every_entry (env_fine [hospital_c]) earlier_world
              [(py "a.csv", JStr (py "2020-12-01"))] [hospital_c])
    as (final & Hfile & Hkeys & _); [by vm_compute|reflexivity|by vm_compute|].
  exists final. split; [done|]. apply Hkeys. by eexists.
Defined.

Lemma downloaded_dataset_is_recorded_witness :
  exists final,
    files (main (env_fine [hospital_a; hospital_c]) earlier_world).2 !! METADATA_FILE
    = Some (json_dumps (JObj final))
    /\ dict_get (py "a.csv") final = Some (JStr (py "2021-01-01")).
Proof.
  apply (downloaded_dataset_is_recorded (env_fine [hospital_a; hospital_c]) earlier_world
           [(py "a.csv", JStr (py "2020-12-01"))] [] hospital_a [hospital_c]).
  - by vm_compute.
  - reflexivity.
  - by vm_compute.
  - intros d' [<-|[]]. by vm_compute.
  - by vm_compute.
Defined.

Lemma every_changed_dataset_is_fetched_witness :
  In (EvReadCsv (JStr (py url_a)))
     (trace (main (env_fine [hospital_a; no_title]) earlier_world).2).
Proof.
  apply (every_changed_dataset_is_fetched (env_fine [hospital_a; no_title]) earlier_world
           [(py "a.csv", JStr (py "2020-12-01"))] [hospital_a; no_title] hospital_a
           (JStr (py "General information")) (JStr (py "2021-01-01")) (JStr (py url_a))
           (py "a.csv")).
  - by vm_compute.
  - reflexivity.
  - by left.
  - reflexivity.
Defined.

Lemma scalar_metadata_aborts_run_witness :
  main (env_fine [hospital_a]) null_world
  = (Raise TypeError, observe null_world [EvMkdir OUTPUT_DIR]).
Proof.
  apply (scalar_metadata_aborts_run (env_fine [hospital_a]) null_world JNull).
  - by vm_compute.
  - exact I.
Defined.

Lemma array_metadata_aborts_run_witness :
  exists err, (main (env_fine [hospital_a]) array_world).1 = Raise err.
Proof.
  destruct (array_metadata_aborts_run (env_fine [hospital_a]) array_world []
              [hospital_a] hospital_a)
    as (err & evs & Hrun & _); [by vm_compute|reflexivity|by left|by vm_compute|].
  by exists err.
Defined.


Lemma completed_run_is_loadable_witness :
  exists final,
    string_snapshot final
    /\ load_metadata (main (env_fine [hospital_a; hospital_c]) earlier_world).2
       = (Ok (snapshot_json final), (main (env_fine [hospital_a; hospital_c]) earlier_world).2).
Proof.
  destruct (completed_run_is_loadable (env_fine [hospital_a; hospital_c]) earlier_world
              [(py "a.csv", py "2020-12-01")] [hospital_a; hospital_c])
    as (final & Hs & _ & Hload).
  - split; [|by repeat constructor]. apply (bool_decide_unpack _). by vm_compute.
  - by vm_compute.
  - reflexivity.
  - intros d name modified [<-|[<-|[]]] Hn Hm;
      vm_compute in Hn; vm_compute in Hm;
      injection Hn as <-; injection Hm as <-; (split; [done|]); by eexists.
  - by vm_compute.
  - by exists final.
Defined.


Lemma snake_case_drops_underscores_witness :
  snake_case (py "facility_id_2") = py "facilityid2".
Proof.
  rewrite snake_case_drops_underscores; [reflexivity|].
  by repeat constructor.
Defined.
